(** * wifiScanner: the scan-output parser of [newWifiScanner/main.py]

    A shallow embedding of the program (decoding the bytes of the scan
    command, locating the columns of the header line, slicing data lines
    into access points, aggregating them by key, picking the scanner of
    the host, splitting with escapes, printing the table, [main] and
    [sample]) together with the properties the specification states
    about it and further properties read off the code.

    Python values are modelled as the program has them: a [str] is a
    list of Unicode code points, a [bytes] object is a list of bytes, an
    [int] is an unbounded integer, and a call that can raise returns an
    [outcome]. *)

From Stdlib Require Import ZArith NArith List String Ascii Lia Bool.
From Stdlib Require Import DecimalString Sorted.
From Stdlib.Strings Require Import Byte.
From stdpp Require Import base option list gmap.

Local Open Scope N_scope.

(** ** Exceptions and results *)

(** The exception classes that the modelled code can meet.  All of them
    derive from [Exception], so an [except Exception] clause catches
    every one. *)
Inductive exn : Type :=
| ValueError
| UnboundLocalError
| AttributeError
| TypeError
| UnicodeDecodeError.

Inductive outcome (A : Type) : Type :=
| Return (a : A)
| Raise (e : exn).

Arguments Return {A} a.
Arguments Raise {A} e.

Definition bind {A B : Type} (m : outcome A) (k : A -> outcome B) : outcome B :=
  match m with
  | Return a => k a
  | Raise e => Raise e
  end.

Notation "'let*' x ':=' m 'in' k" := (bind m (fun x => k))
  (at level 10, x name, m at level 100, k at level 200).

Definition returns {A : Type} (m : outcome A) : bool :=
  match m with
  | Return _ => true
  | Raise _ => false
  end.

(** ** Python strings *)

(** A [str] is a sequence of code points. *)
Abbreviation str := (list N).

(** A literal of the source, written with Rocq's 8-bit characters. *)
Definition lit (s : string) : str := map N_of_ascii (list_ascii_of_string s).

(** [str.isspace] on one character: the code points for which CPython's
    [_PyUnicode_IsWhitespace] answers true. *)
Definition isspace (c : N) : bool :=
  ((0x09 <=? c) && (c <=? 0x0D))
  || ((0x1C <=? c) && (c <=? 0x20))
  || (c =? 0x85) || (c =? 0xA0) || (c =? 0x1680)
  || ((0x2000 <=? c) && (c <=? 0x200A))
  || (c =? 0x2028) || (c =? 0x2029) || (c =? 0x202F)
  || (c =? 0x205F) || (c =? 0x3000).

Fixpoint lstrip (s : str) : str :=
  match s with
  | [] => []
  | c :: s' => if isspace c then lstrip s' else s
  end.

Definition rstrip (s : str) : str := rev (lstrip (rev s)).

(** [s.strip()] *)
Definition strip (s : str) : str := rstrip (lstrip s).

(** [s.startswith(prefix)] *)
Fixpoint startswith (s pre : str) {struct pre} : bool :=
  match pre, s with
  | [], _ => true
  | _ :: _, [] => false
  | p :: pre', c :: s' => (c =? p) && startswith s' pre'
  end.

(** The lowest position at or after [i] where [sub] occurs in [s], the
    text that starts at position [i]. *)
Fixpoint find_from (i : nat) (s sub : str) : option nat :=
  if startswith s sub then Some i
  else match s with
       | [] => None
       | _ :: s' => find_from (S i) s' sub
       end.

Definition find (s sub : str) : option nat := find_from 0 s sub.

(** [s.index(sub)]: like [find], but a missing substring raises. *)
Definition index (s sub : str) : outcome Z :=
  match find s sub with
  | Some i => Return (Z.of_nat i)
  | None => Raise ValueError
  end.

(** [sub in s] *)
Definition contains (s sub : str) : bool :=
  match find s sub with
  | Some _ => true
  | None => false
  end.

(** [s.split(sep)] for a separator that is not empty.  [skip] counts the
    characters of a separator just matched that are still to be passed
    over, [cur] is the piece being collected. *)
Fixpoint split_go (sep : str) (skip : nat) (cur s : str) : list str :=
  match s with
  | [] => [cur]
  | c :: s' =>
      match skip with
      | S k => split_go sep k cur s'
      | O =>
          if startswith s sep
          then cur :: split_go sep (length sep - 1) [] s'
          else split_go sep 0 (cur ++ [c]) s'
      end
  end.

Definition split (s sep : str) : outcome (list str) :=
  match sep with
  | [] => Raise ValueError
  | _ :: _ => Return (split_go sep 0 [] s)
  end.

(** Slice bounds, as [PySlice_AdjustIndices] clips them for step 1: a
    negative bound counts from the end, and every bound is brought into
    [0 .. len]. *)
Definition adjust (len i : Z) : Z :=
  if (i <? 0)%Z then Z.max 0 (i + len) else Z.min i len.

(** [s[start:stop]]; [None] is an omitted bound. *)
Definition slice (s : str) (start stop : option Z) : str :=
  let len := Z.of_nat (length s) in
  let a := match start with Some i => adjust len i | None => 0%Z end in
  let b := match stop with Some j => adjust len j | None => len end in
  take (Z.to_nat (b - a)) (drop (Z.to_nat a) s).

(** ** [int] of a string *)

(** The decimal digit of a code point outside ASCII comes from the
    Unicode database of the interpreter ([Py_UNICODE_TODECIMAL]); it is a
    parameter [todecimal] of the functions below. *)

(** [_PyUnicode_TransformDecimalAndSpaceToASCII], for a string with a
    character outside ASCII: ASCII is kept, other white space becomes a
    blank, other decimal digits become ASCII digits, and the first
    character that is neither ends the text with a question mark. *)
Fixpoint transform_nonascii (todecimal : N -> option N) (s : str) : str :=
  match s with
  | [] => []
  | c :: s' =>
      if c <? 127 then c :: transform_nonascii todecimal s'
      else if isspace c then 0x20 :: transform_nonascii todecimal s'
      else match todecimal c with
           | Some d => (0x30 + d) :: transform_nonascii todecimal s'
           | None => [0x3F]
           end
  end.

Definition transform_decimal_and_space (todecimal : N -> option N) (s : str) : str :=
  if forallb (fun c => c <? 128) s then s else transform_nonascii todecimal s.

(** [Py_ISSPACE]: the white space of the C locale. *)
Definition c_isspace (c : N) : bool :=
  ((0x09 <=? c) && (c <=? 0x0D)) || (c =? 0x20).

Fixpoint skip_c_space (s : str) : str :=
  match s with
  | [] => []
  | c :: s' => if c_isspace c then skip_c_space s' else s
  end.

Definition digit_value (c : N) : option Z :=
  if (0x30 <=? c) && (c <=? 0x39) then Some (Z.of_N (c - 0x30)) else None.

(** The digit loop of [PyLong_FromString] in base ten: digits, with
    single underscores allowed between them.  [prev_us] records that the
    previous character was an underscore.  The result is the value read
    and the text left, or [None] for a doubled or trailing underscore. *)
Fixpoint scan_digits (prev_us : bool) (acc : Z) (s : str) : option (Z * str) :=
  match s with
  | [] => if prev_us then None else Some (acc, [])
  | c :: s' =>
      if c =? 0x5F then
        if prev_us then None else scan_digits true acc s'
      else
        match digit_value c with
        | Some d => scan_digits false (10 * acc + d) s'
        | None => if prev_us then None else Some (acc, s)
        end
  end.

(** [PyLong_FromString(text, base=10)] on the ASCII text: blanks, a sign,
    digits that start with a digit, blanks, and nothing else. *)
Definition long_from_string (s : str) : outcome Z :=
  let s1 := skip_c_space s in
  let '(sign, s2) :=
    match s1 with
    | 0x2B :: t => (1%Z, t)
    | 0x2D :: t => ((-1)%Z, t)
    | _ => (1%Z, s1)
    end in
  match s2 with
  | [] => Raise ValueError
  | c :: _ =>
      match digit_value c with
      | None => Raise ValueError
      | Some _ =>
          match scan_digits false 0 s2 with
          | None => Raise ValueError
          | Some (v, rest) =>
              match skip_c_space rest with
              | [] => Return (sign * v)%Z
              | _ :: _ => Raise ValueError
              end
          end
      end
  end.

(** [int(s)] for a string [s].  The limit that CPython puts on the number
    of digits is left out; the program passes four characters at most. *)
Definition int (todecimal : N -> option N) (s : str) : outcome Z :=
  long_from_string (transform_decimal_and_space todecimal s).

(** ** Access points and signal quality *)

(** [AccessPoint(ssid, bssid, quality, security)]: a dict with exactly
    these four keys. *)
Record AccessPoint : Type := mkAccessPoint {
  ssid : str;
  bssid : str;
  quality : Z;
  security : str
}.

(** [rssi_to_quality(rssi)] *)
Definition rssi_to_quality (rssi : Z) : Z := (2 * (rssi + 100))%Z.

(** ** [OSXWifiScanner.parse_output] *)

(** The value of [security_start_index]: [False] before any header line,
    an [int] after one. *)
Inductive flag_or_int : Type :=
| PyFalse
| PyInt (z : Z).

(** Truth value, as [and] tests it. *)
Definition truthy (v : flag_or_int) : bool :=
  match v with
  | PyFalse => false
  | PyInt z => negb (z =? 0)%Z
  end.

(** Value as a slice bound ([False] is the integer 0). *)
Definition as_index (v : flag_or_int) : Z :=
  match v with
  | PyFalse => 0%Z
  | PyInt z => z
  end.

(** The local variables of [parse_output] that live across iterations.
    [ssid_end_index] and [rssi_start_index] are unbound ([None]) until a
    header line assigns them. *)
Record locals : Type := mkLocals {
  results : list AccessPoint;
  security_start_index : flag_or_int;
  ssid_end_index : option Z;
  rssi_start_index : option Z
}.

Definition initial_locals : locals :=
  {| results := [];
     security_start_index := PyFalse;
     ssid_end_index := None;
     rssi_start_index := None |}.

(** Reading a local variable that may be unbound. *)
Definition read_local (v : option Z) : outcome Z :=
  match v with
  | Some z => Return z
  | None => Raise UnboundLocalError
  end.

Definition newline : str := [0x0A].

Section Parser.

(** [Py_UNICODE_TODECIMAL] of the running interpreter. *)
Variable todecimal : N -> option N.

(** The statements under [try:], on the line [line]. *)
Definition try_block (st : locals) (line : str) : outcome locals :=
  let* e := read_local (ssid_end_index st) in
  let ssid := strip (slice line (Some 0%Z) (Some e)) in
  let* r := read_local (rssi_start_index st) in
  let bssid := strip (slice line (Some (e + 1)%Z) (Some (r - 1)%Z)) in
  let rssi := strip (slice line (Some r) (Some (r + 4)%Z)) in
  let security := slice line (Some (as_index (security_start_index st))) None in
  let* n := int todecimal rssi in
  let ap := mkAccessPoint ssid bssid (rssi_to_quality n) security in
  Return {| results := results st ++ [ap];
            security_start_index := security_start_index st;
            ssid_end_index := ssid_end_index st;
            rssi_start_index := rssi_start_index st |}.

(** [line.strip().startswith("SSID BSSID")] *)
Definition is_header (line : str) : bool :=
  startswith (strip line) (lit "SSID BSSID").

(** The three assignments of the header branch.  An [index] that raises
    leaves the function at once. *)
Definition header_branch (st : locals) (line : str) : outcome locals :=
  let* s := index line (lit "SECURITY") in
  let* i := index line (lit "SSID") in
  let* r := index line (lit "RSSI") in
  Return {| results := results st;
            security_start_index := PyInt s;
            ssid_end_index := Some (i + 4)%Z;
            rssi_start_index := Some r |}.

(** One iteration of the [for] loop. *)
Definition loop_body (st : locals) (line : str) : outcome locals :=
  if is_header line then header_branch st line
  else if negb (Nat.eqb (length line) 0)
          && truthy (security_start_index st)
          && negb (contains line (lit "IBSS"))
  then
    match try_block st line with
    | Return st' => Return st'
    | Raise _ => Return st
    end
  else Return st.

Fixpoint for_lines (st : locals) (lines : list str) : outcome locals :=
  match lines with
  | [] => Return st
  | line :: rest => let* st' := loop_body st line in for_lines st' rest
  end.

Definition parse_output (output : str) : outcome (list AccessPoint) :=
  let* lines := split output newline in
  let* st := for_lines initial_locals lines in
  Return (results st).

End Parser.

(** ** Decoding bytes *)

(** The codecs and error handlers the program names. *)
Inductive encoding : Type := UTF8 | UTF16.
Inductive errors : Type := Strict | Ignore.

(** What a decoder does with an undecodable range: [strict] raises,
    [ignore] goes on with [resume], the decoding of what follows the
    range. *)
Definition on_error (h : errors) (resume : outcome str) : outcome str :=
  match h with
  | Strict => Raise UnicodeDecodeError
  | Ignore => resume
  end.

Definition emit (c : N) (k : outcome str) : outcome str :=
  let* s := k in Return (c :: s).

Definition is_continuation (c : N) : bool := (0x80 <=? c) && (c <? 0xC0).

(** CPython's UTF-8 decoder ([utf8_decode] with the error ranges of
    [unicode_decode_utf8]).  An invalid start byte is a range of one
    byte; an invalid continuation byte ends a range that holds the bytes
    before it; a sequence cut short by the end of the data is a range
    that runs to the end. *)
Fixpoint decode_utf8 (h : errors) (b : list byte) : outcome str :=
  match b with
  | [] => Return []
  | x :: rest =>
      let ch := Byte.to_N x in
      if ch <? 0x80 then emit ch (decode_utf8 h rest)
      else if ch <? 0xC2 then on_error h (decode_utf8 h rest)
      else if ch <? 0xE0 then
        match rest with
        | [] => on_error h (Return [])
        | x2 :: r2 =>
            let ch2 := Byte.to_N x2 in
            if negb (is_continuation ch2) then on_error h (decode_utf8 h rest)
            else emit (N.shiftl ch 6 + ch2 - (N.shiftl 0xC0 6 + 0x80))
                      (decode_utf8 h r2)
        end
      else if ch <? 0xF0 then
        match rest with
        | [] => on_error h (Return [])
        | x2 :: r2 =>
            let ch2 := Byte.to_N x2 in
            if negb (is_continuation ch2)
               || (if ch2 <? 0xA0 then ch =? 0xE0 else ch =? 0xED)
            then on_error h (decode_utf8 h rest)
            else
              match r2 with
              | [] => on_error h (Return [])
              | x3 :: r3 =>
                  let ch3 := Byte.to_N x3 in
                  if negb (is_continuation ch3)
                  then on_error h (decode_utf8 h r2)
                  else emit (N.shiftl ch 12 + N.shiftl ch2 6 + ch3
                             - (N.shiftl 0xE0 12 + N.shiftl 0x80 6 + 0x80))
                            (decode_utf8 h r3)
              end
        end
      else if ch <? 0xF5 then
        match rest with
        | [] => on_error h (Return [])
        | x2 :: r2 =>
            let ch2 := Byte.to_N x2 in
            if negb (is_continuation ch2)
               || (if ch2 <? 0x90 then ch =? 0xF0 else ch =? 0xF4)
            then on_error h (decode_utf8 h rest)
            else
              match r2 with
              | [] => on_error h (Return [])
              | x3 :: r3 =>
                  let ch3 := Byte.to_N x3 in
                  if negb (is_continuation ch3)
                  then on_error h (decode_utf8 h r2)
                  else
                    match r3 with
                    | [] => on_error h (Return [])
                    | x4 :: r4 =>
                        let ch4 := Byte.to_N x4 in
                        if negb (is_continuation ch4)
                        then on_error h (decode_utf8 h r3)
                        else emit (N.shiftl ch 18 + N.shiftl ch2 12
                                   + N.shiftl ch3 6 + ch4
                                   - (N.shiftl 0xF0 18 + N.shiftl 0x80 12
                                      + N.shiftl 0x80 6 + 0x80))
                                  (decode_utf8 h r4)
                    end
              end
        end
      else on_error h (decode_utf8 h rest)
  end.

(** The hosts the program supports (macOS on x86-64 and arm64) are
    little-endian: [PY_LITTLE_ENDIAN]. *)
Definition little_endian_host : bool := true.

(** One 16-bit unit from two bytes. *)
Definition utf16_unit (le : bool) (x0 x1 : byte) : N :=
  if le then N.lor (N.shiftl (Byte.to_N x1) 8) (Byte.to_N x0)
  else N.lor (N.shiftl (Byte.to_N x0) 8) (Byte.to_N x1).

Definition is_surrogate (c : N) : bool := (0xD800 <=? c) && (c <=? 0xDFFF).
Definition is_high_surrogate (c : N) : bool := (0xD800 <=? c) && (c <=? 0xDBFF).
Definition is_low_surrogate (c : N) : bool := (0xDC00 <=? c) && (c <=? 0xDFFF).

Definition join_surrogates (hi lo : N) : N :=
  0x10000 + N.lor (N.shiftl (N.land hi 0x03FF) 10) (N.land lo 0x03FF).

(** CPython's UTF-16 decoder in a fixed byte order.  A single byte left
    at the end, or a high surrogate with no unit after it, is a range
    that runs to the end; a lone low surrogate, or a high surrogate
    followed by another unit, is a range of two bytes. *)
Fixpoint decode_utf16_units (le : bool) (h : errors) (b : list byte) : outcome str :=
  match b with
  | [] => Return []
  | [_] => on_error h (Return [])
  | x0 :: x1 :: rest =>
      let ch := utf16_unit le x0 x1 in
      if negb (is_surrogate ch) then emit ch (decode_utf16_units le h rest)
      else if negb (is_high_surrogate ch)
      then on_error h (decode_utf16_units le h rest)
      else
        match rest with
        | [] => on_error h (Return [])
        | [_] => on_error h (Return [])
        | y0 :: y1 :: rest2 =>
            let ch2 := utf16_unit le y0 y1 in
            if is_low_surrogate ch2
            then emit (join_surrogates ch ch2) (decode_utf16_units le h rest2)
            else on_error h (decode_utf16_units le h rest)
        end
  end.

(** The [utf16] codec: a byte-order mark chooses the order and is
    dropped; without one the order is the host's. *)
Definition decode_utf16 (h : errors) (b : list byte) : outcome str :=
  match b with
  | x0 :: x1 :: rest =>
      let bom := utf16_unit true x0 x1 in
      if bom =? 0xFEFF then decode_utf16_units true h rest
      else if bom =? 0xFFFE then decode_utf16_units false h rest
      else decode_utf16_units little_endian_host h b
  | _ => decode_utf16_units little_endian_host h b
  end.

(** [bytes.decode(encoding, errors)] *)
Definition bytes_decode (enc : encoding) (h : errors) (b : list byte) : outcome str :=
  match enc with
  | UTF8 => decode_utf8 h b
  | UTF16 => decode_utf16 h b
  end.

(** ** [ensure_str] *)

(** The Python values that reach [ensure_str] and [parse_output]. *)
Inductive pyobj : Type :=
| PyBytes (b : list byte)
| PyStr (s : str)
| PyNone.

(** [output.decode(encoding, errors=...)]: only [bytes] has the method. *)
Definition decode (output : pyobj) (enc : encoding) (h : errors) : outcome pyobj :=
  match output with
  | PyBytes b => let* s := bytes_decode enc h b in Return (PyStr s)
  | PyStr _ => Raise AttributeError
  | PyNone => Raise AttributeError
  end.

Definition ensure_str (output : pyobj) : outcome pyobj :=
  match decode output UTF8 Ignore with
  | Return s => Return s
  | Raise UnicodeDecodeError => decode output UTF16 Ignore
  | Raise AttributeError => Return output
  | Raise e => Raise e
  end.

(** ** [aps_to_dict] *)

(** The key of the comprehension: [ap['ssid'] + " " + ap['bssid']]. *)
Definition ap_key (ap : AccessPoint) : str := ssid ap ++ lit " " ++ bssid ap.

(** The dict comprehension stores the pairs from left to right, a later
    pair replacing an earlier one with the same key. *)
Definition aps_to_dict (aps : list AccessPoint) : gmap str Z :=
  foldl (fun d ap => <[ap_key ap := quality ap]> d) ∅ aps.

(** ** Scanners *)

(** An instance of [WifiScanner], after [__init__]. *)
Record WifiScanner : Type := mkWifiScanner {
  device : str;
  cmd : str
}.

(** [OSXWifiScanner.get_cmd] *)
Definition OSXWifiScanner_get_cmd : str :=
  let path := lit "sudo /System/Library/PrivateFrameworks/Apple80211.framework/Versions/Current/Resources/" in
  let cmd := lit "airport -s" in
  path ++ cmd.

(** [OSXWifiScanner(device)] *)
Definition OSXWifiScanner (device : str) : WifiScanner :=
  {| device := device; cmd := OSXWifiScanner_get_cmd |}.

(** [get_scanner(device)], where [operating_system] is what
    [platform.system()] answers.  A function body that ends without
    [return] gives [None]. *)
Definition get_scanner (operating_system device : str) : outcome (option WifiScanner) :=
  if bool_decide (operating_system = lit "Darwin")
  then Return (Some (OSXWifiScanner device))
  else Return None.

Section Host.

Variable todecimal : N -> option N.

(** [call_subprocess(cmd)]: what the shell command [cmd] writes to its
    standard output. *)
Variable call_subprocess : str -> list byte.

(** [parse_output(output)] called with a Python value: [split] with a
    [str] separator exists on [str] only. *)
Definition call_parse_output (output : pyobj) : outcome (list AccessPoint) :=
  match output with
  | PyStr s => parse_output todecimal s
  | PyBytes _ => Raise TypeError
  | PyNone => Raise AttributeError
  end.

(** [WifiScanner.get_access_points]: the commands run, and the result. *)
Definition get_access_points (self : WifiScanner) : list str * outcome (list AccessPoint) :=
  let out := PyBytes (call_subprocess (cmd self)) in
  ([cmd self], let* s := ensure_str out in call_parse_output s).

(** The first two statements of [main]:
    [wifi_scanner = get_scanner(device)] and
    [access_points = wifi_scanner.get_access_points()]. *)
Definition main_access_points (operating_system device : str) : list str * outcome (list AccessPoint) :=
  match get_scanner operating_system device with
  | Raise e => ([], Raise e)
  | Return None => ([], Raise AttributeError)
  | Return (Some wifi_scanner) => get_access_points wifi_scanner
  end.

End Host.

(** ** The Unicode database of CPython 3.11 (Unicode 14) *)

(** The code points of the digit zero of every decimal script; the nine
    code points after each are its digits one to nine. *)
Definition decimal_zeros : list N :=
  [0x30; 0x660; 0x6f0; 0x7c0; 0x966; 0x9e6; 0xa66; 0xae6; 0xb66; 0xbe6;
   0xc66; 0xce6; 0xd66; 0xde6; 0xe50; 0xed0; 0xf20; 0x1040; 0x1090;
   0x17e0; 0x1810; 0x1946; 0x19d0; 0x1a80; 0x1a90; 0x1b50; 0x1bb0;
   0x1c40; 0x1c50; 0xa620; 0xa8d0; 0xa900; 0xa9d0; 0xa9f0; 0xaa50;
   0xabf0; 0xff10; 0x104a0; 0x10d30; 0x11066; 0x110f0; 0x11136; 0x111d0;
   0x112f0; 0x11450; 0x114d0; 0x11650; 0x116c0; 0x11730; 0x118e0;
   0x11950; 0x11c50; 0x11d50; 0x11da0; 0x16a60; 0x16ac0; 0x16b50;
   0x1d7ce; 0x1d7d8; 0x1d7e2; 0x1d7ec; 0x1d7f6; 0x1e140; 0x1e2f0;
   0x1e950; 0x1fbf0].

Fixpoint decimal_in (zeros : list N) (c : N) : option N :=
  match zeros with
  | [] => None
  | z :: zs => if (z <=? c) && (c <? z + 10) then Some (c - z) else decimal_in zs c
  end.

Definition unicode14_todecimal (c : N) : option N := decimal_in decimal_zeros c.

(** ** The record parser in the words of the specification *)

(** The offsets a header line fixes. *)
Record ColumnBoundaries : Type := mkColumnBoundaries {
  securityStart : Z;
  ssidEnd : Z;
  rssiStart : Z
}.

(** The record of one data line under given boundaries, step by step:
    no record for an ad-hoc line; identifier from [[0, ssidEnd)];
    hardware address from [(ssidEnd, rssiStart - 1)]; signal from
    [[rssiStart, rssiStart + 4)], read as an integer; security
    descriptor from [securityStart] to the end of the line, untrimmed;
    no record when the signal is not an integer. *)
Definition record_of_line (todecimal : N -> option N) (cb : ColumnBoundaries)
    (line : str) : option AccessPoint :=
  if contains line (lit "IBSS") then None
  else
    let identifier := strip (slice line (Some 0%Z) (Some (ssidEnd cb))) in
    let hardwareAddress :=
      strip (slice line (Some (ssidEnd cb + 1)%Z) (Some (rssiStart cb - 1)%Z)) in
    let signal :=
      strip (slice line (Some (rssiStart cb)) (Some (rssiStart cb + 4)%Z)) in
    let securityDescriptor := slice line (Some (securityStart cb)) None in
    match int todecimal signal with
    | Return r =>
        Some (mkAccessPoint identifier hardwareAddress (rssi_to_quality r)
                securityDescriptor)
    | Raise _ => None
    end.

(** ** Sample scan texts *)

(** A header line of the scan utility, with the name column cut to
    twelve characters. *)
Definition sample_header : str :=
  lit "        SSID BSSID             RSSI CHANNEL HT CC SECURITY (auth/unicast/group)".

(** A data line whose fields are separated by runs of blanks, without
    regard to the columns of [sample_header]. *)
Definition sample_unaligned_line : str :=
  lit "HomeNet         aa:bb:cc:dd:ee:ff -55   6       Y  US WPA2(PSK/AES/AES)".

(** The same network, laid out in the columns of [sample_header]. *)
Definition sample_aligned_line : str :=
  lit "HomeNet      aa:bb:cc:dd:ee:ff -55  6       Y  US WPA2(PSK/AES/AES)".

Definition HomeNet : AccessPoint :=
  {| ssid := lit "HomeNet";
     bssid := lit "aa:bb:cc:dd:ee:ff";
     quality := 90;
     security := lit "WPA2(PSK/AES/AES)" |}.

(** An ad-hoc network, laid out in the columns of [sample_header]. *)
Definition sample_adhoc_line : str :=
  lit "Printer      aa:bb:cc:dd:ee:01 -60  6       Y  -- NONE IBSS".

(** A scan text with a ten-character name column and a six-character
    address column, and two networks whose name and address differ but
    read the same when joined by a blank. *)
Definition sample_colliding_text : str :=
  lit "      SSID BSSID  RSSI SECURITY" ++ newline ++
  lit "a b        c      -50  x" ++ newline ++
  lit "a          b c    -70  y".

(** The local variables once a header with boundaries [cb] has been
    read and [rs] has been collected. *)
Definition locals_of (cb : ColumnBoundaries) (rs : list AccessPoint) : locals :=
  {| results := rs;
     security_start_index := PyInt (securityStart cb);
     ssid_end_index := Some (ssidEnd cb);
     rssi_start_index := Some (rssiStart cb) |}.

(** ** [split_escaped] *)

(** The [for] loop of [split_escaped], with its three variables.  A
    character equals the separator when the separator is that one
    character. *)
Fixpoint split_escaped_loop (separator : str) (result : list str)
    (current : str) (escaped : bool) (string : str) : list str :=
  match string with
  | [] => result ++ [current]
  | char :: rest =>
      if negb escaped then
        if char =? 0x5C
        then split_escaped_loop separator result current true rest
        else if bool_decide ([char] = separator)
        then split_escaped_loop separator (result ++ [current]) [] false rest
        else split_escaped_loop separator result (current ++ [char]) false rest
      else split_escaped_loop separator result (current ++ [char]) false rest
  end.

Definition split_escaped (string separator : str) : list str :=
  split_escaped_loop separator [] [] false string.

(** [sep.join(pieces)] *)
Fixpoint join (sep : str) (pieces : list str) : str :=
  match pieces with
  | [] => []
  | [p] => p
  | p :: rest => p ++ sep ++ join sep rest
  end.

(** A piece written so that [split_escaped] reads it back: a backslash
    before every backslash and before every separator character. *)
Definition escape (c : N) (piece : str) : str :=
  flat_map (fun x => if (x =? 0x5C) || (x =? c) then [0x5C; x] else [x]) piece.

(** ** Values, [str()] and [format] *)

(** The values that an [AccessPoint] holds and that [get] returns. *)
Inductive pyval : Type :=
| VStr (s : str)
| VInt (z : Z)
| VNone.

(** [ap.get(key)], which is also [ap.key] by [__getattr__]: the value
    under one of the four keys, [None] under any other. *)
Definition ap_get (ap : AccessPoint) (key : str) : pyval :=
  if bool_decide (key = lit "ssid") then VStr (ssid ap)
  else if bool_decide (key = lit "bssid") then VStr (bssid ap)
  else if bool_decide (key = lit "quality") then VInt (quality ap)
  else if bool_decide (key = lit "security") then VStr (security ap)
  else VNone.

(** [str(n)] for an integer: its decimal digits, after a minus sign when
    it is negative. *)
Definition str_of_int (z : Z) : str :=
  lit (DecimalString.NilZero.string_of_int (Z.to_int z)).

(** [str(v)] *)
Definition py_str (v : pyval) : str :=
  match v with
  | VStr s => s
  | VInt z => str_of_int z
  | VNone => lit "None"
  end.

(** [header.lower()] for the column headers, which are ASCII: the
    letters A to Z become a to z. *)
Definition lower_ascii (s : str) : str :=
  map (fun c => if (0x41 <=? c) && (c <=? 0x5A) then c + 32 else c) s.

(** [max(xs)] of a sequence of lengths; the empty sequence raises. *)
Definition max_of (xs : list nat) : outcome nat :=
  match xs with
  | [] => Raise ValueError
  | x :: xs' => Return (foldl Nat.max x xs')
  end.

Fixpoint map_outcome {A B : Type} (f : A -> outcome B) (l : list A) : outcome (list B) :=
  match l with
  | [] => Return []
  | x :: l' =>
      let* y := f x in
      let* ys := map_outcome f l' in
      Return (y :: ys)
  end.

(** The replacement field [{:<width}] applied to [v]: the text of [v],
    filled with blanks on the right up to [width].  [None] has no such
    format. *)
Definition format_left (width : nat) (v : pyval) : outcome str :=
  match v with
  | VStr s => Return (s ++ replicate (width - length s) 0x20)
  | VInt z => Return (str_of_int z ++ replicate (width - length (str_of_int z)) 0x20)
  | VNone => Raise TypeError
  end.

(** [format_str.format] applied to [args], where [format_str] is the fields
    [{:<width}] of [column_widths] joined by [" | "]; there are as many
    arguments as fields. *)
Definition format_row (column_widths : list nat) (args : list pyval) : outcome str :=
  let* fields :=
    map_outcome (fun wa => format_left (fst wa) (snd wa)) (zip column_widths args) in
  Return (join (lit " | ") fields).

(** ** [print_wifi_networks] *)

(** [sorted(networks, key=quality, reverse=True)]: by falling quality,
    records of equal quality in the order they had. *)
Fixpoint insert_by_quality (ap : AccessPoint) (sorted : list AccessPoint) : list AccessPoint :=
  match sorted with
  | [] => [ap]
  | x :: rest =>
      if (quality x <=? quality ap)%Z then ap :: sorted
      else x :: insert_by_quality ap rest
  end.

Definition sorted_by_quality (networks : list AccessPoint) : list AccessPoint :=
  foldr insert_by_quality [] networks.

(** [Bcolors] *)
Definition Bcolors_GREAT : str := 0x1B :: lit "[0;32m".
Definition Bcolors_GOOD : str := 0x1B :: lit "[1;33m".
Definition Bcolors_FAIR : str := 0x1B :: lit "[35m".
Definition Bcolors_POOR : str := 0x1B :: lit "[1;31m".

(** The colour chosen in the loop over the rows. *)
Definition color_of (q : Z) : str :=
  if (70 <=? q)%Z then Bcolors_GREAT
  else if (50 <=? q)%Z then Bcolors_GOOD
  else if (30 <=? q)%Z then Bcolors_FAIR
  else Bcolors_POOR.

Definition headers : list str :=
  [lit "SSID"; lit "BSSID"; lit "Quality"; lit "Security"].

(** The width of the column under [header]: the longest of the header
    and the texts of the values. *)
Definition column_width (networks : list AccessPoint) (header : str) : outcome nat :=
  let* m := max_of (map (fun ap => length (py_str (ap_get ap (lower_ascii header))))
                      networks) in
  Return (Nat.max (length header) m).

(** One data row: the colour, then the four values in their columns. *)
Definition print_row (column_widths : list nat) (ap : AccessPoint) : outcome str :=
  let color := color_of (quality ap) in
  let* row := format_row column_widths
                [ap_get ap (lit "ssid"); ap_get ap (lit "bssid");
                 ap_get ap (lit "quality"); ap_get ap (lit "security")] in
  Return (color ++ row).

(** The loop over the rows: the lines printed, until a row raises. *)
Fixpoint print_rows (column_widths : list nat) (networks : list AccessPoint)
  : list str * outcome unit :=
  match networks with
  | [] => ([], Return tt)
  | ap :: rest =>
      match print_row column_widths ap with
      | Raise e => ([], Raise e)
      | Return line =>
          let '(printed, r) := print_rows column_widths rest in
          (line :: printed, r)
      end
  end.

(** [print_wifi_networks(networks)]: the lines printed, and how the
    call ends. *)
Definition print_wifi_networks (networks : list AccessPoint) : list str * outcome unit :=
  let networks := sorted_by_quality networks in
  match map_outcome (column_width networks) headers with
  | Raise e => ([], Raise e)
  | Return column_widths =>
      match format_row column_widths (map VStr headers) with
      | Raise e => ([], Raise e)
      | Return head =>
          let rule :=
            replicate (foldr Nat.add 0%nat column_widths
                       + length column_widths * 3 - 2) 0x2D in
          let '(printed, r) := print_rows column_widths networks in
          (head :: rule :: printed, r)
      end
  end.

(** ** [main] and [sample] *)

Section Program.

Variable todecimal : N -> option N.
Variable call_subprocess : str -> list byte.

(** [platform.system()] *)
Variable operating_system : str.

(** [main()] with [sys.argv = argv]: the commands run, the lines
    printed, and how the call ends. *)
Definition main (argv : list str) : list str * list str * outcome unit :=
  let device := filter (fun x => contains x (lit "-") = false) (drop 1 argv) in
  let device := match device with [] => [lit ""] | _ :: _ => device end in
  let device := hd [] device in
  let '(commands, r) :=
    main_access_points todecimal call_subprocess operating_system device in
  match r with
  | Raise e => (commands, [], Raise e)
  | Return access_points =>
      if bool_decide (lit "-n" ∈ argv)
      then (commands, [str_of_int (Z.of_nat (length access_points))], Return tt)
      else let '(printed, r) := print_wifi_networks access_points in
           (commands, printed, r)
  end.

(** The record that [sample] uses in place of a scan. *)
Definition sample_fixture : AccessPoint :=
  {| ssid := lit "X"; bssid := lit "XX:XX:XX:XX:XX:84"; quality := 100;
     security := lit "XX" |}.

(** [sample(device)], where [PYTHON_ENV] is the value of that variable
    in the environment, [None] when it is not set: the commands run and
    the result. *)
Definition sample (PYTHON_ENV : option str) (device : str)
  : list str * outcome (gmap str Z) :=
  match get_scanner operating_system device with
  | Raise e => ([], Raise e)
  | Return wifi_scanner =>
      let use_fixture :=
        match PYTHON_ENV with
        | None => false
        | Some v => negb (Nat.eqb (length v) 0)
        end in
      if negb use_fixture then
        match wifi_scanner with
        | None => ([], Raise AttributeError)
        | Some scanner =>
            let '(commands, r) := get_access_points todecimal call_subprocess scanner in
            (commands, let* aps := r in Return (aps_to_dict aps))
        end
      else ([], Return (aps_to_dict [sample_fixture]))
  end.

End Program.

(** The bytes of an ASCII text, for the sample outputs of the scan
    command. *)
Definition ascii_bytes (s : str) : list byte := omap Byte.of_N s.

(** A scan command that writes the sample header and one aligned line. *)
Definition sample_command (cmd : str) : list byte :=
  ascii_bytes (sample_header ++ newline ++ sample_aligned_line ++ newline).

(** A scan command that writes nothing. *)
Definition silent_command (cmd : str) : list byte := [].

(** ** The lines of the table *)

(** [s.ljust(width)], which is also what the field [{:<width}] makes of
    the text [s]: blanks on the right up to [width]. *)
Definition ljust (s : str) (width : nat) : str :=
  s ++ replicate (width - length s) 0x20.

(** Four texts in columns of the given widths, with [" | "] between. *)
Definition table_line (w1 w2 w3 w4 : nat) (c1 c2 c3 c4 : str) : str :=
  ljust c1 w1 ++ lit " | " ++ ljust c2 w2 ++ lit " | "
  ++ ljust c3 w3 ++ lit " | " ++ ljust c4 w4.

(** The row of a network: its colour, then its four fields in columns. *)
Definition table_row (w1 w2 w3 w4 : nat) (ap : AccessPoint) : str :=
  color_of (quality ap)
  ++ table_line w1 w2 w3 w4 (ssid ap) (bssid ap) (str_of_int (quality ap))
       (security ap).

(** * Properties *)

(** Evaluate the string literals in the goal. *)
Ltac eval_lits :=
  repeat match goal with
         | |- context [lit ?s] =>
             let v := eval vm_compute in (lit s) in
             change (lit s) with v
         end.

Ltac eval_lits_in H :=
  repeat match type of H with
         | context [lit ?s] =>
             let v := eval vm_compute in (lit s) in
             change (lit s) with v in H
         end.

(** ** Strings *)

Lemma startswith_app (s t pre : str) :
  startswith s pre = true -> startswith (s ++ t) pre = true.
Proof.
  revert s. induction pre as [|p pre IH]; intros s H.
  - destruct s; reflexivity.
  - destruct s as [|c s]; simpl in *; [discriminate|].
    apply andb_true_iff in H as [Hc Hs].
    rewrite Hc. simpl. now apply IH.
Qed.

Lemma startswith_spec (s pre : str) :
  startswith s pre = true <-> exists t, s = pre ++ t.
Proof.
  revert s. induction pre as [|p pre IH]; intros s; split.
  - intros _. exists s. reflexivity.
  - intros _. destruct s; reflexivity.
  - destruct s as [|c s]; simpl; [discriminate|].
    intros H. apply andb_true_iff in H as [Hc Hs].
    apply N.eqb_eq in Hc. subst c.
    apply IH in Hs as [t ->]. exists t. reflexivity.
  - intros [t ->]. simpl. rewrite N.eqb_refl. simpl.
    apply IH. exists t. reflexivity.
Qed.

Lemma lstrip_suffix (s : str) : exists w, s = w ++ lstrip s.
Proof.
  induction s as [|c s [w IH]]; simpl.
  - exists []. reflexivity.
  - destruct (isspace c).
    + exists (c :: w). simpl. now f_equal.
    + exists []. reflexivity.
Qed.

Lemma rstrip_prefix (s : str) : exists w, s = rstrip s ++ w.
Proof.
  unfold rstrip. destruct (lstrip_suffix (rev s)) as [w Hw].
  exists (rev w).
  rewrite <- rev_app_distr, <- Hw. symmetry. apply rev_involutive.
Qed.

(** A line is a header line only if, leading white space apart, it
    starts with the header text. *)
Lemma is_header_lstrip (line : str) :
  is_header line = true -> startswith (lstrip line) (lit "SSID BSSID") = true.
Proof.
  unfold is_header, strip. intros H.
  destruct (rstrip_prefix (lstrip line)) as [w Hw].
  rewrite Hw. now apply startswith_app.
Qed.

Lemma find_from_ge (i : nat) (s sub : str) (j : nat) :
  find_from i s sub = Some j -> (i <= j)%nat.
Proof.
  revert i. induction s as [|c s IH]; intros i; simpl.
  - destruct (startswith [] sub); [|discriminate].
    intros [= ->]. lia.
  - destruct (startswith (c :: s) sub).
    + intros [= ->]. lia.
    + intros H. apply IH in H. lia.
Qed.

Lemma find_zero (s sub : str) :
  find s sub = Some 0%nat -> startswith s sub = true.
Proof.
  unfold find. destruct s as [|c s]; simpl.
  - destruct (startswith [] sub); [reflexivity|discriminate].
  - destruct (startswith (c :: s) sub); [reflexivity|].
    intros H. apply find_from_ge in H. lia.
Qed.

(** On a header line the text SECURITY cannot start in column 0, so the
    index stored by the header branch is a true value. *)
Lemma header_security_positive (line : str) (s : nat) :
  is_header line = true ->
  find line (lit "SECURITY") = Some s ->
  s <> 0%nat.
Proof.
  intros Hh Hf ->.
  apply find_zero in Hf. apply startswith_spec in Hf as [t ->].
  apply is_header_lstrip in Hh.
  eval_lits_in Hh. vm_compute in Hh. discriminate.
Qed.

Lemma slice_nil (start stop : option Z) : slice [] start stop = [].
Proof. unfold slice. rewrite drop_nil. apply take_nil. Qed.

(** ** The loop of [parse_output] *)

Section ParserProperties.

Variable todecimal : N -> option N.

Lemma for_lines_app (st : locals) (l1 l2 : list str) :
  for_lines todecimal st (l1 ++ l2) =
  let* st' := for_lines todecimal st l1 in for_lines todecimal st' l2.
Proof.
  revert st. induction l1 as [|l l1 IH]; intros st; simpl; [reflexivity|].
  destruct (loop_body todecimal st l); simpl; [apply IH|reflexivity].
Qed.

(** A line that is not a header never makes the loop raise. *)
Lemma loop_body_data_returns (st : locals) (line : str) :
  is_header line = false ->
  exists st', loop_body todecimal st line = Return st'.
Proof.
  intros Hh. unfold loop_body. rewrite Hh.
  destruct (_ && _ && _); [|eauto].
  destruct (try_block todecimal st line); eauto.
Qed.

(** Before the first header every other line is passed over. *)
Lemma loop_body_before_header (st : locals) (line : str) :
  security_start_index st = PyFalse ->
  is_header line = false ->
  loop_body todecimal st line = Return st.
Proof.
  intros Hs Hh. unfold loop_body. rewrite Hh, Hs. simpl.
  now rewrite andb_false_r.
Qed.

Lemma for_lines_before_header (st : locals) (lines : list str) :
  security_start_index st = PyFalse ->
  Forall (fun line => is_header line = false) lines ->
  for_lines todecimal st lines = Return st.
Proof.
  intros Hs Hl. induction Hl as [|line lines Hh _ IH]; simpl; [reflexivity|].
  rewrite loop_body_before_header by assumption. apply IH.
Qed.

(** An ad-hoc line changes nothing. *)
Lemma loop_body_ibss (st : locals) (line : str) :
  is_header line = false ->
  contains line (lit "IBSS") = true ->
  loop_body todecimal st line = Return st.
Proof.
  intros Hh Hc. unfold loop_body. rewrite Hh, Hc. simpl.
  now rewrite andb_false_r.
Qed.

(** A header line with all three labels stores its boundaries, whatever
    was stored before. *)
Lemma loop_body_header (st : locals) (line : str) (s i r : nat) :
  is_header line = true ->
  find line (lit "SECURITY") = Some s ->
  find line (lit "SSID") = Some i ->
  find line (lit "RSSI") = Some r ->
  loop_body todecimal st line =
  Return (locals_of
            {| securityStart := Z.of_nat s;
               ssidEnd := Z.of_nat i + 4;
               rssiStart := Z.of_nat r |}
            (results st)).
Proof.
  intros Hh Hs Hi Hr. unfold loop_body, header_branch, index.
  rewrite Hh, Hs, Hi, Hr. reflexivity.
Qed.

(** Under boundaries in force, a line that is not a header adds the
    record the specification describes, or nothing. *)
Lemma loop_body_data (cb : ColumnBoundaries) (rs : list AccessPoint) (line : str) :
  securityStart cb <> 0%Z ->
  is_header line = false ->
  loop_body todecimal (locals_of cb rs) line =
  Return (locals_of cb (rs ++ option_list (record_of_line todecimal cb line))).
Proof.
  intros Hs Hh. unfold loop_body, record_of_line. rewrite Hh.
  destruct (contains line (lit "IBSS")); simpl.
  { rewrite andb_false_r, app_nil_r. reflexivity. }
  destruct line as [|c line].
  { simpl. rewrite !slice_nil. vm_compute (int todecimal (strip [])).
    simpl. now rewrite app_nil_r. }
  simpl. apply Z.eqb_neq in Hs. rewrite Hs. simpl.
  unfold try_block. simpl.
  destruct (int todecimal _); simpl; [reflexivity|].
  now rewrite app_nil_r.
Qed.

Lemma for_lines_data (cb : ColumnBoundaries) (rs : list AccessPoint) (lines : list str) :
  securityStart cb <> 0%Z ->
  Forall (fun line => is_header line = false) lines ->
  for_lines todecimal (locals_of cb rs) lines =
  Return (locals_of cb (rs ++ omap (record_of_line todecimal cb) lines)).
Proof.
  intros Hs Hl. revert rs.
  induction Hl as [|line lines Hh _ IH]; intros rs; simpl.
  { now rewrite app_nil_r. }
  rewrite loop_body_data by assumption. simpl. rewrite IH.
  destruct (record_of_line todecimal cb line); simpl.
  - now rewrite <- app_assoc.
  - now rewrite app_nil_r.
Qed.

End ParserProperties.

(** ** When the loop raises *)

Lemma find_from_app (i : nat) (w s sub : str) :
  startswith s sub = true -> exists j, find_from i (w ++ s) sub = Some j.
Proof.
  intros Hs. revert i. induction w as [|c w IH]; intros i; simpl.
  - destruct s; simpl; rewrite Hs; eauto.
  - destruct (startswith (c :: w ++ s) sub); eauto.
Qed.

(** A header line always holds the label SSID. *)
Lemma header_has_ssid (line : str) :
  is_header line = true -> exists i, find line (lit "SSID") = Some i.
Proof.
  intros Hh. apply is_header_lstrip in Hh.
  apply startswith_spec in Hh as [t Ht].
  destruct (lstrip_suffix line) as [w Hw].
  rewrite Hw. apply find_from_app.
  rewrite Ht. reflexivity.
Qed.

(** The loop raises on no other line than a header line that lacks
    RSSI or SECURITY: a text whose header lines hold both is parsed to
    the end. *)
Lemma parse_output_returns (todecimal : N -> option N) (output : str) :
  (forall lines, split output newline = Return lines ->
     Forall (fun line => is_header line = true ->
               contains line (lit "SECURITY") = true
               /\ contains line (lit "RSSI") = true) lines) ->
  exists aps, parse_output todecimal output = Return aps.
Proof.
  intros H. specialize (H (split_go newline 0 [] output) eq_refl).
  unfold parse_output.
  change (split output newline) with (Return (split_go newline 0 [] output)).
  simpl.
  assert (Hl : forall st, exists st',
             for_lines todecimal st (split_go newline 0 [] output) = Return st').
  { induction H as [|line lines Hline _ IH]; intros st; simpl; [eauto|].
    destruct (is_header line) eqn:Hh.
    - destruct (Hline eq_refl) as [Hs Hr].
      destruct (header_has_ssid line Hh) as [i Hi].
      unfold contains in Hs, Hr.
      destruct (find line (lit "SECURITY")) as [s|] eqn:Hfs; [|discriminate].
      destruct (find line (lit "RSSI")) as [r|] eqn:Hfr; [|discriminate].
      rewrite (loop_body_header todecimal st line s i r) by assumption.
      simpl. apply IH.
    - destruct (loop_body_data_returns todecimal st line Hh) as [st' ->].
      simpl. apply IH. }
  destruct (Hl initial_locals) as [st' ->]. simpl. eauto.
Qed.

(** Conversely, a header line that lacks one of the two labels makes the
    whole parse raise [ValueError], wherever it stands in the text. *)
Lemma parse_output_raises (todecimal : N -> option N) (output : str) (lines : list str) :
  split output newline = Return lines ->
  Exists (fun line => is_header line = true
                      /\ (contains line (lit "SECURITY") = false
                          \/ contains line (lit "RSSI") = false)) lines ->
  parse_output todecimal output = Raise ValueError.
Proof.
  intros Hsplit Hex. unfold parse_output. rewrite Hsplit. simpl.
  assert (Hl : forall st, for_lines todecimal st lines = Raise ValueError).
  { clear Hsplit.
    induction lines as [|line lines IH]; intros st; [inversion Hex|].
    simpl. destruct (is_header line) eqn:Hh.
    - unfold loop_body, header_branch, index. rewrite Hh.
      destruct (header_has_ssid line Hh) as [i Hi]. rewrite Hi.
      unfold contains in Hex.
      destruct (find line (lit "SECURITY")) as [s|] eqn:Hfs; [|reflexivity].
      destruct (find line (lit "RSSI")) as [r|] eqn:Hfr; [|reflexivity].
      simpl. apply IH.
      apply Exists_cons in Hex as [[_ [Hc|Hc]]|Hex];
        [rewrite Hfs in Hc; discriminate|rewrite Hfr in Hc; discriminate|exact Hex].
    - destruct (loop_body_data_returns todecimal st line Hh) as [st' ->].
      simpl. apply IH.
      apply Exists_cons in Hex as [[Hc _]|Hex]; [congruence|exact Hex]. }
  rewrite Hl. reflexivity.
Qed.

(** ** The parser on whole texts *)

(** C1 (as the code has it).  The two-line text made of [sample_header]
    and the data line of the specification's example gives no record:
    the line is not laid out in the columns of the header, so that the
    four columns under RSSI hold [ff -], which is not an integer.  The
    same fields laid out in the header's columns give exactly one
    record, with identifier HomeNet, hardware address
    aa:bb:cc:dd:ee:ff, quality 90 and security descriptor
    WPA2(PSK/AES/AES). *)
Theorem parse_sample_by_columns (todecimal : N -> option N) :
  parse_output todecimal (sample_header ++ newline ++ sample_unaligned_line)
  = Return []
  /\ parse_output todecimal (sample_header ++ newline ++ sample_aligned_line)
     = Return [HomeNet].
Proof. split; vm_compute; reflexivity. Qed.

(** C1, the example as the specification gives it: the parse of the
    header line followed by the unaligned data line is empty, not the
    one record HomeNet. *)
Lemma parse_sample_unaligned_is_empty :
  parse_output unicode14_todecimal
    (sample_header ++ newline ++ sample_unaligned_line)
  = Return []
  /\ parse_output unicode14_todecimal
       (sample_header ++ newline ++ sample_unaligned_line)
     <> Return [HomeNet].
Proof. split; vm_compute; [reflexivity|discriminate]. Qed.

(** C2.  A line is a header line exactly when its stripped text starts
    with SSID BSSID ([is_header]).  A header line that holds the labels
    stores the index after SSID, the index of RSSI and the index of
    SECURITY, whatever boundaries [st] held before, and the lines after
    it, up to the next header line, are sliced by these boundaries:
    they leave the boundaries as they are and add the records of
    [record_of_line]. *)
Theorem header_boundaries_govern (todecimal : N -> option N) (st : locals)
    (header : str) (s i r : nat) (lines : list str) :
  startswith (strip header) (lit "SSID BSSID") = true ->
  find header (lit "SECURITY") = Some s ->
  find header (lit "SSID") = Some i ->
  find header (lit "RSSI") = Some r ->
  Forall (fun line => startswith (strip line) (lit "SSID BSSID") = false) lines ->
  let cb := {| securityStart := Z.of_nat s;
               ssidEnd := Z.of_nat i + 4;
               rssiStart := Z.of_nat r |} in
  for_lines todecimal st (header :: lines) =
  Return {| results := results st ++ omap (record_of_line todecimal cb) lines;
            security_start_index := PyInt (securityStart cb);
            ssid_end_index := Some (ssidEnd cb);
            rssi_start_index := Some (rssiStart cb) |}.
Proof.
  intros Hh Hs Hi Hr Hl cb. simpl.
  rewrite (loop_body_header todecimal st header s i r) by assumption.
  simpl. fold cb. rewrite for_lines_data; [reflexivity| |exact Hl].
  simpl. pose proof (header_security_positive header s Hh Hs). lia.
Qed.

Lemma header_boundaries_govern_witness :
  for_lines unicode14_todecimal
    (locals_of {| securityStart := 7; ssidEnd := 3; rssiStart := 5 |} [])
    [sample_header; sample_aligned_line; lit "no columns here";
     sample_unaligned_line]
  = Return (locals_of {| securityStart := 50; ssidEnd := 12; rssiStart := 31 |}
              [HomeNet]).
Proof.
  apply (header_boundaries_govern unicode14_todecimal
           (locals_of {| securityStart := 7; ssidEnd := 3; rssiStart := 5 |} [])
           sample_header 50 8 31
           [sample_aligned_line; lit "no columns here"; sample_unaligned_line]).
  - vm_compute. reflexivity.
  - vm_compute. reflexivity.
  - vm_compute. reflexivity.
  - vm_compute. reflexivity.
  - repeat constructor.
Defined.

(** C3, where the code departs from it.  A header line that lacks the
    label SECURITY (or RSSI) makes [parse_output] raise [ValueError]:
    the [index] calls of the header branch are outside the [try]
    statement.  The records of the well-formed lines read before it are
    lost with it. *)
Theorem parse_output_header_without_labels_raises (todecimal : N -> option N) :
  parse_output todecimal (lit "SSID BSSID") = Raise ValueError
  /\ parse_output todecimal
       (sample_header ++ newline ++ sample_aligned_line ++ newline
        ++ lit "SSID BSSID RSSI")
     = Raise ValueError.
Proof. split; vm_compute; reflexivity. Qed.

(** C4.  The quality of a signal strength [r] is [2 * (r + 100)] for
    every integer; it is 90 at -55 and 0 at -100, and nothing clamps it
    to 0..150: it is -2 at -101 and 200 at 0. *)
Theorem rssi_to_quality_linear (r : Z) :
  (rssi_to_quality r = 2 * (r + 100)
   /\ rssi_to_quality (-55) = 90
   /\ rssi_to_quality (-100) = 0
   /\ rssi_to_quality (-101) = -2
   /\ rssi_to_quality 0 = 200)%Z.
Proof. repeat split. Qed.

(** C5.  A text that is empty, or none of whose lines is a header line,
    parses to the empty list; nothing is raised. *)
Theorem parse_output_without_header (todecimal : N -> option N) (output : str) :
  output = [] \/
  (forall lines, split output newline = Return lines ->
     Forall (fun line => startswith (strip line) (lit "SSID BSSID") = false) lines) ->
  parse_output todecimal output = Return [].
Proof.
  intros [-> | H]; [vm_compute; reflexivity|].
  unfold parse_output.
  specialize (H (split_go newline 0 [] output) eq_refl).
  change (split output newline) with (Return (split_go newline 0 [] output)).
  simpl. rewrite for_lines_before_header; [reflexivity|reflexivity|exact H].
Qed.

Lemma parse_output_without_header_witness :
  parse_output unicode14_todecimal
    (sample_aligned_line ++ newline ++ sample_unaligned_line ++ newline)
  = Return [].
Proof.
  apply parse_output_without_header. right.
  intros lines H. vm_compute in H. injection H as <-.
  repeat constructor.
Defined.

(** C6.  A data line that contains IBSS anywhere adds no record: the
    loop leaves its variables as they were, and the parse of a text is
    the parse of the text without that line. *)
Theorem ibss_line_excluded (todecimal : N -> option N) (st : locals)
    (output output' : str) (before after : list str) (line : str) :
  startswith (strip line) (lit "SSID BSSID") = false ->
  contains line (lit "IBSS") = true ->
  split output newline = Return (before ++ line :: after) ->
  split output' newline = Return (before ++ after) ->
  loop_body todecimal st line = Return st
  /\ parse_output todecimal output = parse_output todecimal output'.
Proof.
  intros Hh Hc Ho Ho'. split; [now apply loop_body_ibss|].
  unfold parse_output. rewrite Ho, Ho'. simpl.
  rewrite !for_lines_app. simpl.
  destruct (for_lines todecimal initial_locals before) as [st1|e]; simpl;
    [|reflexivity].
  now rewrite loop_body_ibss.
Qed.

Lemma ibss_line_excluded_witness :
  loop_body unicode14_todecimal
    (locals_of {| securityStart := 50; ssidEnd := 12; rssiStart := 31 |} [])
    sample_adhoc_line
  = Return (locals_of {| securityStart := 50; ssidEnd := 12; rssiStart := 31 |} [])
  /\ parse_output unicode14_todecimal
       (sample_header ++ newline ++ sample_adhoc_line ++ newline
        ++ sample_aligned_line)
     = parse_output unicode14_todecimal
         (sample_header ++ newline ++ sample_aligned_line).
Proof.
  apply (ibss_line_excluded unicode14_todecimal _ _ _
           [sample_header] [sample_aligned_line] sample_adhoc_line).
  - vm_compute. reflexivity.
  - vm_compute. reflexivity.
  - vm_compute. reflexivity.
  - vm_compute. reflexivity.
Defined.

(** The ad-hoc line of the sample is well formed but for its mark:
    without the mark it gives a record. *)
Example adhoc_line_without_mark (todecimal : N -> option N) :
  record_of_line todecimal
    {| securityStart := 50; ssidEnd := 12; rssiStart := 31 |}
    (take 54 sample_adhoc_line)
  = Some {| ssid := lit "Printer"; bssid := lit "aa:bb:cc:dd:ee:01";
            quality := 80; security := lit "NONE" |}.
Proof. vm_compute. reflexivity. Qed.

(** A slice bound beyond the end of a line is no failure: the slice is
    cut at the end.  A line that stops before the security column still
    gives a record, with an empty descriptor. *)
Example short_line_keeps_record (todecimal : N -> option N) :
  parse_output todecimal
    (sample_header ++ newline ++ take 35 sample_aligned_line)
  = Return [{| ssid := lit "HomeNet"; bssid := lit "aa:bb:cc:dd:ee:ff";
               quality := 90; security := [] |}].
Proof. vm_compute. reflexivity. Qed.

(** A line whose signal columns hold no integer is dropped, and the lines
    around it are kept. *)
Example bad_signal_line_skipped (todecimal : N -> option N) :
  parse_output todecimal
    (sample_header ++ newline ++ sample_aligned_line ++ newline
     ++ sample_unaligned_line ++ newline ++ sample_aligned_line)
  = Return [HomeNet; HomeNet].
Proof. vm_compute. reflexivity. Qed.

(** ** The scanner of the host *)

(** C7, as the specification gives it, at the operating system Linux:
    the lookup does not fail, it returns [None]. *)
Lemma get_scanner_linux_returns_none :
  get_scanner (lit "Linux") (lit "") = Return None
  /\ ~ (exists e, get_scanner (lit "Linux") (lit "") = Raise e).
Proof. split; [vm_compute; reflexivity|]. intros [e He]. vm_compute in He. discriminate. Qed.

(** C7 (as the code has it).  For every operating system other than
    Darwin the lookup raises nothing and returns [None]; it is the call
    of [get_access_points] on that [None] that fails, with
    [AttributeError], and no command has been run by then. *)
Theorem get_scanner_unsupported (todecimal : N -> option N)
    (call_subprocess : str -> list byte) (operating_system device : str) :
  operating_system <> lit "Darwin" ->
  get_scanner operating_system device = Return None
  /\ main_access_points todecimal call_subprocess operating_system device
     = ([], Raise AttributeError).
Proof.
  intros Hos. unfold main_access_points, get_scanner.
  rewrite bool_decide_eq_false_2 by exact Hos. split; reflexivity.
Qed.

Lemma get_scanner_unsupported_witness :
  get_scanner (lit "Linux") (lit "en0") = Return None
  /\ main_access_points unicode14_todecimal (fun _ => []) (lit "Linux") (lit "en0")
     = ([], Raise AttributeError).
Proof.
  apply get_scanner_unsupported. vm_compute. discriminate.
Defined.

(** On Darwin the lookup gives the one scanner there is, and scanning
    runs its command once. *)
Lemma get_scanner_darwin (todecimal : N -> option N)
    (call_subprocess : str -> list byte) (device : str) :
  get_scanner (lit "Darwin") device = Return (Some (OSXWifiScanner device))
  /\ fst (main_access_points todecimal call_subprocess (lit "Darwin") device)
     = [OSXWifiScanner_get_cmd].
Proof. split; reflexivity. Qed.

(** ** The aggregator *)

Lemma aps_to_dict_snoc (aps : list AccessPoint) (ap : AccessPoint) :
  aps_to_dict (aps ++ [ap]) = <[ap_key ap := quality ap]> (aps_to_dict aps).
Proof. unfold aps_to_dict. rewrite foldl_snoc. reflexivity. Qed.

(** C8.  The dict holds, under each key, the quality of the last record
    of the sequence whose name, a blank and address make up that key,
    and nothing under a key that no record makes up.  So for a name and
    address seen twice, with quality 90 and then 70, the dict holds 70. *)
Theorem aps_to_dict_last_wins (aps : list AccessPoint) (k : str) :
  aps_to_dict aps !! k
  = quality <$> last (filter (fun ap => ssid ap ++ 0x20 :: bssid ap = k) aps)
  /\ aps_to_dict
       [{| ssid := lit "HomeNet"; bssid := lit "aa:bb:cc:dd:ee:ff";
           quality := 90; security := lit "WPA2(PSK/AES/AES)" |};
        {| ssid := lit "Cafe"; bssid := lit "aa:bb:cc:dd:ee:02";
           quality := 40; security := lit "NONE" |};
        {| ssid := lit "HomeNet"; bssid := lit "aa:bb:cc:dd:ee:ff";
           quality := 70; security := lit "WPA2(PSK/AES/AES)" |}]
     = <[lit "HomeNet aa:bb:cc:dd:ee:ff" := 70%Z]>
         {[lit "Cafe aa:bb:cc:dd:ee:02" := 40%Z]}.
Proof.
  split.
  - induction aps as [|ap aps IH] using rev_ind; [reflexivity|].
    rewrite aps_to_dict_snoc, filter_app, lookup_insert.
    rewrite filter_cons, filter_nil.
    change (ap_key ap) with (ssid ap ++ 0x20 :: bssid ap).
    destruct (decide (ssid ap ++ 0x20 :: bssid ap = k)) as [Hk|Hk].
    + rewrite last_snoc. reflexivity.
    + rewrite app_nil_r. exact IH.
  - vm_compute. reflexivity.
Qed.

(** C10.  Two records with different name and address can have the same
    key: "a b" with "c", and "a" with "b c".  Both come out of one scan
    text, and the dict then holds a single entry, with the quality of
    the second. *)
Theorem ap_key_not_injective (todecimal : N -> option N) :
  let r1 := {| ssid := lit "a b"; bssid := lit "c"; quality := 100;
               security := lit "x" |} in
  let r2 := {| ssid := lit "a"; bssid := lit "b c"; quality := 60;
               security := lit "y" |} in
  (ssid r1, bssid r1) <> (ssid r2, bssid r2)
  /\ ap_key r1 = ap_key r2
  /\ parse_output todecimal sample_colliding_text = Return [r1; r2]
  /\ aps_to_dict [r1; r2] = {[ lit "a b c" := 60%Z ]}.
Proof.
  intros r1 r2. split; [|split; [|split]].
  - vm_compute. discriminate.
  - vm_compute. reflexivity.
  - vm_compute. reflexivity.
  - unfold aps_to_dict. simpl.
    change (ap_key r2) with (ap_key r1).
    rewrite insert_insert_eq, insert_empty. reflexivity.
Qed.

(** ** Decoding *)

Lemma length_induction {A : Type} (P : list A -> Prop) :
  (forall l, (forall k, (length k < length l)%nat -> P k) -> P l) ->
  forall l, P l.
Proof.
  intros step l.
  assert (H : forall n k, (length k < n)%nat -> P k).
  { induction n as [|n IH]; intros k Hk; [lia|].
    apply step. intros k' Hk'. apply IH. lia. }
  apply (H (S (length l))). lia.
Qed.

Lemma decode_utf8_ignore_returns (b : list byte) :
  exists s, decode_utf8 Ignore b = Return s.
Proof.
  induction b as [b IH] using length_induction.
  destruct b as [|x rest]; [exists []; reflexivity|].
  cbn [decode_utf8].
  repeat case_match; subst; unfold on_error, emit;
    try (eexists; reflexivity);
    match goal with
    | |- context [decode_utf8 Ignore ?r] =>
        let s := fresh "s" in let Hs := fresh "Hs" in
        destruct (IH r) as [s Hs]; [simpl; lia|];
        rewrite Hs; simpl; eexists; reflexivity
    end.
Qed.

Lemma decode_utf8_strict_ignore (b : list byte) (s : str) :
  decode_utf8 Strict b = Return s -> decode_utf8 Ignore b = Return s.
Proof.
  revert s. induction b as [b IH] using length_induction. intros s.
  destruct b as [|x rest]; [trivial|].
  cbn [decode_utf8].
  repeat case_match; subst; unfold on_error; try discriminate;
    match goal with
    | |- emit _ (decode_utf8 Strict ?r) = _ -> _ =>
        unfold emit, bind;
        destruct (decode_utf8 Strict r) as [t|] eqn:Ht; [|discriminate];
        rewrite (IH r ltac:(simpl; lia) t Ht); trivial
    end.
Qed.

Lemma decode_utf16_units_ignore_returns (le : bool) (b : list byte) :
  exists s, decode_utf16_units le Ignore b = Return s.
Proof.
  induction b as [b IH] using length_induction.
  destruct b as [|x0 [|x1 rest]]; [exists []; reflexivity..|].
  cbn [decode_utf16_units].
  repeat case_match; subst; unfold on_error, emit;
    try (eexists; reflexivity);
    match goal with
    | |- context [decode_utf16_units le Ignore ?r] =>
        let s := fresh "s" in let Hs := fresh "Hs" in
        destruct (IH r) as [s Hs]; [simpl; lia|];
        rewrite Hs; simpl; eexists; reflexivity
    end.
Qed.

Lemma decode_utf16_ignore_returns (b : list byte) :
  exists s, decode_utf16 Ignore b = Return s.
Proof.
  unfold decode_utf16.
  repeat case_match; apply decode_utf16_units_ignore_returns.
Qed.

(** C9, where the code departs from it.  On every byte sequence
    [ensure_str] returns a string and raises nothing, but the string is
    always the UTF-8 decoding under the [ignore] handler: that decoding
    never raises, so the [except UnicodeDecodeError] branch with the
    UTF-16 decoding is never taken.  The bytes ff fe 41 00, the UTF-16
    text of the letter A after its byte-order mark, are not valid
    UTF-8 and decode to A as UTF-16, yet [ensure_str] gives A followed
    by a null character.  A byte that cannot be decoded is dropped and
    the bytes around it are kept. *)
Theorem ensure_str_never_falls_back :
  (forall b : list byte,
     exists s, bytes_decode UTF8 Ignore b = Return s
               /\ ensure_str (PyBytes b) = Return (PyStr s))
  /\ bytes_decode UTF8 Strict [xff; xfe; x41; x00] = Raise UnicodeDecodeError
  /\ bytes_decode UTF16 Ignore [xff; xfe; x41; x00] = Return [0x41]
  /\ ensure_str (PyBytes [xff; xfe; x41; x00]) = Return (PyStr [0x41; 0x00])
  /\ ensure_str (PyBytes [x41; xff; x42]) = Return (PyStr [0x41; 0x42]).
Proof.
  split; [|repeat split].
  intros b. destruct (decode_utf8_ignore_returns b) as [s Hs].
  exists s. split; [exact Hs|].
  unfold ensure_str. simpl. rewrite Hs. reflexivity.
Qed.

(** * Further properties *)

(** ** [split_escaped] *)

Lemma split_escaped_loop_result (separator : str) (result : list str)
    (current : str) (escaped : bool) (string : str) :
  split_escaped_loop separator result current escaped string =
  result ++ split_escaped_loop separator [] current escaped string.
Proof.
  revert result current escaped.
  induction string as [|char rest IH]; intros result current escaped; simpl.
  - reflexivity.
  - destruct escaped; simpl; [apply IH|].
    destruct (char =? 0x5C); [apply IH|].
    destruct (bool_decide ([char] = separator)); [|apply IH].
    rewrite IH, (IH ([] ++ [current])), app_assoc. reflexivity.
Qed.

Lemma split_escaped_loop_plain (c : N) (current string : str) :
  0x5C ∉ string ->
  split_escaped_loop [c] [] current false string = split_go [c] 0 current string.
Proof.
  revert current. induction string as [|char rest IH]; intros current Hb; simpl.
  - reflexivity.
  - apply not_elem_of_cons in Hb as [Hc Hb].
    destruct (N.eqb_spec char 0x5C) as [->|_]; [congruence|].
    rewrite andb_true_r.
    destruct (N.eqb_spec char c) as [->|Hne].
    + rewrite bool_decide_eq_true_2 by reflexivity.
      rewrite split_escaped_loop_result. simpl. f_equal. now apply IH.
    + rewrite bool_decide_eq_false_2 by congruence. now apply IH.
Qed.

(** X1.  On a string without backslash, [split_escaped] with a
    one-character separator gives what [str.split] gives. *)
Theorem split_escaped_is_split (string : str) (c : N) :
  0x5C ∉ string ->
  split string [c] = Return (split_escaped string [c]).
Proof.
  intros Hb. unfold split, split_escaped.
  now rewrite split_escaped_loop_plain.
Qed.

Lemma split_escaped_is_split_witness :
  split (lit "a,b,,c") (lit ",") = Return (split_escaped (lit "a,b,,c") (lit ",")).
Proof.
  apply (split_escaped_is_split (lit "a,b,,c") 0x2C).
  vm_compute. intros H. repeat (apply elem_of_cons in H as [H|H]; [discriminate|]).
  inversion H.
Defined.

Lemma split_escaped_loop_no_split (separator : str) (current string : str) :
  length separator <> 1%nat ->
  0x5C ∉ string ->
  split_escaped_loop separator [] current false string = [current ++ string].
Proof.
  intros Hs. revert current.
  induction string as [|char rest IH]; intros current Hb; simpl.
  - now rewrite app_nil_r.
  - apply not_elem_of_cons in Hb as [Hc Hb].
    destruct (N.eqb_spec char 0x5C) as [->|_]; [congruence|].
    rewrite bool_decide_eq_false_2.
    + rewrite IH by assumption. now rewrite <- app_assoc.
    + intros <-. apply Hs. reflexivity.
Qed.

(** X2.  A separator that is not exactly one character long never
    splits: nothing is raised for the empty separator, and a string
    without backslash comes back whole, as the only piece. *)
Theorem split_escaped_long_separator (string separator : str) :
  length separator <> 1%nat ->
  0x5C ∉ string ->
  split_escaped string separator = [string].
Proof. intros Hs Hb. unfold split_escaped. now rewrite split_escaped_loop_no_split. Qed.

Lemma split_escaped_long_separator_witness :
  split_escaped (lit "a, b, c") (lit ", ") = [lit "a, b, c"]
  /\ split_escaped (lit "a, b, c") [] = [lit "a, b, c"].
Proof.
  split; apply split_escaped_long_separator;
    try (vm_compute; lia);
    vm_compute; intros H;
    repeat (apply elem_of_cons in H as [H|H]; [discriminate|]); inversion H.
Defined.

Lemma split_escaped_loop_escape (c : N) (current piece rest : str) :
  split_escaped_loop [c] [] current false (escape c piece ++ rest) =
  split_escaped_loop [c] [] (current ++ piece) false rest.
Proof.
  revert current. induction piece as [|x piece IH]; intros current; simpl.
  - now rewrite app_nil_r.
  - unfold escape in IH.
    destruct (N.eqb_spec x 0x5C) as [->|Hx]; simpl.
    + rewrite IH, <- app_assoc. reflexivity.
    + destruct (N.eqb_spec x c) as [->|Hc]; simpl.
      * rewrite IH, <- app_assoc. reflexivity.
      * destruct (N.eqb_spec x 0x5C); [congruence|].
        rewrite bool_decide_eq_false_2 by congruence.
        rewrite IH, <- app_assoc. reflexivity.
Qed.

Lemma split_escaped_loop_join (c : N) (current piece : str) (pieces : list str) :
  c <> 0x5C ->
  split_escaped_loop [c] [] current false (join [c] (map (escape c) (piece :: pieces))) =
  (current ++ piece) :: pieces.
Proof.
  intros Hc. revert current piece.
  induction pieces as [|q pieces IH]; intros current piece.
  - simpl. rewrite <- (app_nil_r (escape c piece)).
    rewrite split_escaped_loop_escape. reflexivity.
  - change (join [c] (map (escape c) (piece :: q :: pieces)))
      with (escape c piece ++ [c] ++ join [c] (map (escape c) (q :: pieces))).
    rewrite split_escaped_loop_escape. simpl.
    destruct (N.eqb_spec c 0x5C); [congruence|].
    rewrite bool_decide_eq_true_2 by reflexivity.
    rewrite split_escaped_loop_result. simpl. f_equal.
    apply (IH [] q).
Qed.

(** X3.  Round trip: pieces written with a backslash before each
    backslash and each separator, and joined by the separator, are read
    back as they were, whatever characters they hold. *)
Theorem split_escaped_join_escape (c : N) (pieces : list str) :
  c <> 0x5C ->
  pieces <> [] ->
  split_escaped (join [c] (map (escape c) pieces)) [c] = pieces.
Proof.
  intros Hc Hp. destruct pieces as [|piece pieces]; [congruence|].
  unfold split_escaped. now rewrite split_escaped_loop_join.
Qed.

Lemma split_escaped_join_escape_witness :
  split_escaped (lit "a\,b,\\c,,d") (lit ",") = [lit "a,b"; lit "\c"; []; lit "d"].
Proof.
  apply (split_escaped_join_escape 0x2C [lit "a,b"; lit "\c"; []; lit "d"]);
    vm_compute; discriminate.
Defined.

Lemma split_escaped_loop_app (separator : str) (current s : str) :
  0x5C ∉ s ->
  exists result current',
    forall t, split_escaped_loop separator [] current false (s ++ t)
              = result ++ split_escaped_loop separator [] current' false t.
Proof.
  revert current. induction s as [|char rest IH]; intros current Hb.
  - exists [], current. reflexivity.
  - apply not_elem_of_cons in Hb as [Hc Hb]. simpl.
    destruct (N.eqb_spec char 0x5C) as [->|_]; [congruence|].
    destruct (bool_decide ([char] = separator)).
    + destruct (IH [] Hb) as (result & current' & H).
      exists (current :: result), current'. intros t'.
      rewrite split_escaped_loop_result, H. reflexivity.
    + apply IH. assumption.
Qed.

(** X4.  A backslash at the very end escapes nothing and is dropped
    without a trace. *)
Theorem split_escaped_trailing_backslash (string separator : str) :
  0x5C ∉ string ->
  split_escaped (string ++ [0x5C]) separator = split_escaped string separator.
Proof.
  intros Hb. unfold split_escaped.
  destruct (split_escaped_loop_app separator [] string Hb) as (result & current & H).
  pose proof (H [0x5C]) as H1. pose proof (H []) as H2.
  rewrite app_nil_r in H2. rewrite H1, H2. reflexivity.
Qed.

Lemma split_escaped_trailing_backslash_witness :
  split_escaped (lit "a,b\") (lit ",") = split_escaped (lit "a,b") (lit ",").
Proof.
  apply (split_escaped_trailing_backslash (lit "a,b") (lit ",")).
  vm_compute. intros H.
  repeat (apply elem_of_cons in H as [H|H]; [discriminate|]). inversion H.
Defined.

(** ** What a record of [parse_output] can be *)

(** One iteration adds at most one record, and a record it adds is the
    record of its line under the boundaries in force. *)
Lemma loop_body_adds (todecimal : N -> option N) (st st' : locals) (line : str) :
  loop_body todecimal st line = Return st' ->
  results st' = results st
  \/ exists cb ap, record_of_line todecimal cb line = Some ap
                   /\ results st' = results st ++ [ap].
Proof.
  unfold loop_body. destruct (is_header line).
  { unfold header_branch, index.
    destruct (find line (lit "SECURITY")); [|discriminate].
    destruct (find line (lit "SSID")); [|discriminate].
    destruct (find line (lit "RSSI")); [|discriminate].
    simpl. intros [= <-]. now left. }
  destruct (negb (length line =? 0)%nat); simpl; [|intros [= <-]; now left].
  destruct (security_start_index st) as [|z] eqn:Hz; simpl;
    [intros [= <-]; now left|].
  destruct (z =? 0)%Z; simpl; [intros [= <-]; now left|].
  destruct (contains line (lit "IBSS")) eqn:Hc; simpl; [intros [= <-]; now left|].
  unfold try_block. rewrite Hz.
  destruct (ssid_end_index st) as [e|]; simpl; [|intros [= <-]; now left].
  destruct (rssi_start_index st) as [r|]; simpl; [|intros [= <-]; now left].
  destruct (int todecimal _) as [n|] eqn:Hn; simpl; intros [= <-]; [|now left].
  right. exists {| securityStart := z; ssidEnd := e; rssiStart := r |}.
  eexists. split; [|reflexivity].
  unfold record_of_line. rewrite Hc. simpl. rewrite Hn. reflexivity.
Qed.

Lemma for_lines_adds (todecimal : N -> option N) (lines : list str) (st st' : locals) :
  for_lines todecimal st lines = Return st' ->
  exists new,
    results st' = results st ++ new
    /\ Forall (fun ap => exists line cb,
                 line ∈ lines /\ record_of_line todecimal cb line = Some ap) new.
Proof.
  revert st. induction lines as [|line lines IH]; intros st; simpl.
  - intros [= <-]. exists []. split; [now rewrite app_nil_r|constructor].
  - destruct (loop_body todecimal st line) as [st1|] eqn:H1; simpl; [|discriminate].
    intros H. apply IH in H as (new & Hnew & Hall).
    assert (Hall' : Forall (fun ap => exists line0 cb,
                 line0 ∈ line :: lines
                 /\ record_of_line todecimal cb line0 = Some ap) new).
    { eapply Forall_impl; [exact Hall|].
      intros ap (l & cb & Hl & Hr). exists l, cb. split; [now right|exact Hr]. }
    apply loop_body_adds in H1 as [H1|(cb & ap & Hr & H1)].
    + exists new. rewrite <- H1. split; assumption.
    + exists (ap :: new). rewrite Hnew, H1, <- app_assoc. split; [reflexivity|].
      constructor; [|exact Hall'].
      exists line, cb. split; [now left|exact Hr].
Qed.

(** Every record of a parse is the record of one line of the text. *)
Lemma parse_output_records (todecimal : N -> option N) (output : str)
    (aps : list AccessPoint) :
  parse_output todecimal output = Return aps ->
  Forall (fun ap => exists line cb,
            line ∈ split_go newline 0 [] output
            /\ record_of_line todecimal cb line = Some ap) aps.
Proof.
  unfold parse_output.
  change (split output newline) with (Return (split_go newline 0 [] output)).
  simpl.
  destruct (for_lines todecimal initial_locals _) as [st|] eqn:H; [|discriminate].
  simpl. intros [= <-].
  apply for_lines_adds in H as (new & -> & Hall). exact Hall.
Qed.

(** *** White space at the ends *)

Lemma lstrip_cases (s : str) :
  lstrip s = [] \/ exists c t, lstrip s = c :: t /\ isspace c = false.
Proof.
  induction s as [|c s IH]; simpl; [now left|].
  destruct (isspace c) eqn:Hc; [exact IH|].
  right. exists c, s. split; [reflexivity|exact Hc].
Qed.

Lemma lstrip_app_nonspace (u v : str) (c : N) :
  isspace c = false -> lstrip (u ++ c :: v) = lstrip u ++ c :: v.
Proof.
  intros Hc. induction u as [|x u IH]; simpl.
  - now rewrite Hc.
  - destruct (isspace x); [exact IH|reflexivity].
Qed.

Lemma rstrip_cons_nonspace (c : N) (t : str) :
  isspace c = false -> rstrip (c :: t) = c :: rstrip t.
Proof.
  intros Hc. unfold rstrip. simpl.
  rewrite lstrip_app_nonspace by exact Hc.
  rewrite rev_app_distr. reflexivity.
Qed.

Lemma lstrip_lstrip (s : str) : lstrip (lstrip s) = lstrip s.
Proof.
  destruct (lstrip_cases s) as [->|(c & t & -> & Hc)]; [reflexivity|].
  simpl. now rewrite Hc.
Qed.

Lemma rstrip_rstrip (s : str) : rstrip (rstrip s) = rstrip s.
Proof. unfold rstrip. now rewrite rev_involutive, lstrip_lstrip. Qed.

Lemma strip_strip (s : str) : strip (strip s) = strip s.
Proof.
  unfold strip at 2 3.
  destruct (lstrip_cases s) as [->|(c & t & -> & Hc)]; [reflexivity|].
  rewrite rstrip_cons_nonspace by exact Hc.
  unfold strip. simpl. rewrite Hc.
  rewrite rstrip_cons_nonspace by exact Hc.
  f_equal. apply rstrip_rstrip.
Qed.

Lemma lstrip_sublist (s : str) : lstrip s `sublist_of` s.
Proof.
  destruct (lstrip_suffix s) as [w Hw]. rewrite Hw at 2.
  now apply sublist_inserts_l.
Qed.

Lemma rstrip_sublist (s : str) : rstrip s `sublist_of` s.
Proof.
  destruct (rstrip_prefix s) as [w Hw]. rewrite Hw at 2.
  now apply sublist_inserts_r.
Qed.

Lemma strip_sublist (s : str) : strip s `sublist_of` s.
Proof.
  unfold strip. etransitivity; [apply rstrip_sublist|apply lstrip_sublist].
Qed.

Lemma slice_sublist (s : str) (start stop : option Z) :
  slice s start stop `sublist_of` s.
Proof.
  unfold slice. etransitivity; [apply sublist_take|apply sublist_drop].
Qed.

(** X5.  In every record of a parse the name and the address are
    stripped: stripping them again changes nothing. *)
Theorem parse_output_fields_stripped (todecimal : N -> option N) (output : str)
    (aps : list AccessPoint) :
  parse_output todecimal output = Return aps ->
  Forall (fun ap => strip (ssid ap) = ssid ap /\ strip (bssid ap) = bssid ap) aps.
Proof.
  intros H. apply parse_output_records in H.
  eapply Forall_impl; [exact H|].
  intros ap (line & cb & _ & Hr). unfold record_of_line in Hr.
  destruct (contains line (lit "IBSS")); [discriminate|].
  destruct (int todecimal _); [|discriminate].
  injection Hr as <-. simpl. split; apply strip_strip.
Qed.

Lemma parse_output_fields_stripped_witness :
  Forall (fun ap => strip (ssid ap) = ssid ap /\ strip (bssid ap) = bssid ap)
    [HomeNet].
Proof.
  apply (parse_output_fields_stripped unicode14_todecimal
           (sample_header ++ newline ++ sample_aligned_line)).
  vm_compute. reflexivity.
Defined.

(** *** No line break in a field *)

Lemma split_go_pieces (c : N) (cur s : str) :
  c ∉ cur -> Forall (fun piece => c ∉ piece) (split_go [c] 0 cur s).
Proof.
  revert cur. induction s as [|x s IH]; intros cur Hcur; simpl.
  - constructor; [exact Hcur|constructor].
  - rewrite andb_true_r. destruct (N.eqb_spec x c) as [->|Hx].
    + constructor; [exact Hcur|]. apply IH. apply not_elem_of_nil.
    + apply IH. rewrite not_elem_of_app. split; [exact Hcur|].
      rewrite not_elem_of_cons. split; [congruence|apply not_elem_of_nil].
Qed.

(** X6.  No field of a record of a parse holds a line break. *)
Theorem parse_output_fields_one_line (todecimal : N -> option N) (output : str)
    (aps : list AccessPoint) :
  parse_output todecimal output = Return aps ->
  Forall (fun ap => (0x0A ∉ ssid ap) /\ (0x0A ∉ bssid ap) /\ (0x0A ∉ security ap)) aps.
Proof.
  intros H. apply parse_output_records in H.
  eapply Forall_impl; [exact H|].
  intros ap (line & cb & Hl & Hr).
  assert (Hline : 0x0A ∉ line).
  { pose proof (split_go_pieces 0x0A [] output (not_elem_of_nil _)) as Hp.
    rewrite Forall_forall in Hp. now apply Hp. }
  unfold record_of_line in Hr.
  destruct (contains line (lit "IBSS")); [discriminate|].
  destruct (int todecimal _); [|discriminate].
  injection Hr as <-. simpl.
  repeat split; intros Hin; apply Hline;
    (eapply elem_of_sublist; [exact Hin|]);
    try (etransitivity; [apply strip_sublist|]); apply slice_sublist.
Qed.

Lemma parse_output_fields_one_line_witness :
  Forall (fun ap => (0x0A ∉ ssid ap) /\ (0x0A ∉ bssid ap) /\ (0x0A ∉ security ap))
    [HomeNet; HomeNet].
Proof.
  apply (parse_output_fields_one_line unicode14_todecimal
           (sample_header ++ newline ++ sample_aligned_line ++ newline
            ++ sample_aligned_line)).
  vm_compute. reflexivity.
Defined.

(** *** The range of the quality *)

Lemma transform_nonascii_length (todecimal : N -> option N) (s : str) :
  (length (transform_nonascii todecimal s) <= length s)%nat.
Proof.
  induction s as [|c s IH]; simpl; [lia|].
  destruct (c <? 127); simpl; [lia|].
  destruct (isspace c); simpl; [lia|].
  destruct (todecimal c); simpl; lia.
Qed.

Lemma skip_c_space_length (s : str) : (length (skip_c_space s) <= length s)%nat.
Proof.
  induction s as [|c s IH]; simpl; [lia|].
  destruct (c_isspace c); simpl; lia.
Qed.

Lemma digit_value_range (c : N) (d : Z) :
  digit_value c = Some d -> (0 <= d <= 9)%Z.
Proof.
  unfold digit_value.
  destruct (N.leb_spec 0x30 c); simpl; [|discriminate].
  destruct (N.leb_spec c 0x39); [|discriminate].
  intros [= <-]. lia.
Qed.

Lemma scan_digits_bound (s : str) (prev_us : bool) (acc v : Z) (rest : str) :
  (0 <= acc)%Z ->
  scan_digits prev_us acc s = Some (v, rest) ->
  (0 <= v < (acc + 1) * 10 ^ Z.of_nat (length s))%Z.
Proof.
  revert prev_us acc. induction s as [|c s IH]; intros prev_us acc Hacc; simpl length.
  - simpl. destruct prev_us; [discriminate|]. intros [= <- _].
    change (10 ^ Z.of_nat 0)%Z with 1%Z. lia.
  - rewrite Nat2Z.inj_succ, Z.pow_succ_r by lia.
    assert (Hp : (0 < 10 ^ Z.of_nat (length s))%Z) by (apply Z.pow_pos_nonneg; lia).
    simpl. destruct (c =? 0x5F).
    + destruct prev_us; [discriminate|]. intros H.
      apply IH in H; [|exact Hacc]. nia.
    + destruct (digit_value c) as [d|] eqn:Hd.
      * apply digit_value_range in Hd. intros H.
        apply IH in H; [|lia]. nia.
      * destruct prev_us; [discriminate|]. intros [= <- _]. nia.
Qed.

Lemma sign_cases (s1 : str) (sign : Z) (s2 : str) :
  match s1 with
  | 0x2B :: t => (1%Z, t)
  | 0x2D :: t => ((-1)%Z, t)
  | _ => (1%Z, s1)
  end = (sign, s2) ->
  (sign = 1%Z /\ s2 = s1)
  \/ ((sign = 1%Z \/ sign = (-1)%Z) /\ exists c, s1 = c :: s2).
Proof.
  intros H. repeat case_match; subst; injection H as <- <-; eauto.
Qed.

Lemma long_from_string_range (s : str) (n : Z) :
  (length s <= 4)%nat ->
  long_from_string s = Return n ->
  (-999 <= n <= 9999)%Z.
Proof.
  intros Hlen. unfold long_from_string.
  pose proof (skip_c_space_length s) as Hs1.
  destruct (match skip_c_space s with
            | 0x2B :: t => (1%Z, t)
            | 0x2D :: t => ((-1)%Z, t)
            | _ => (1%Z, skip_c_space s)
            end) as [sign s2] eqn:Hsign.
  apply sign_cases in Hsign.
  destruct s2 as [|c s2']; [discriminate|].
  destruct (digit_value c); [|discriminate].
  destruct (scan_digits false 0 (c :: s2')) as [[v rest]|] eqn:Hscan; [|discriminate].
  destruct (skip_c_space rest); [|discriminate].
  intros [= <-].
  apply scan_digits_bound in Hscan; [|lia].
  assert (Hpow : forall k : nat, (k <= 4)%nat ->
            (10 ^ Z.of_nat k <= 10 ^ 4)%Z)
    by (intros k Hk; apply Z.pow_le_mono_r; lia).
  destruct Hsign as [[-> Heq]|[Hsg [c' Heq]]].
  - rewrite <- Heq in Hs1.
    specialize (Hpow (length (c :: s2')) ltac:(lia)). lia.
  - rewrite Heq in Hs1. simpl in Hs1.
    assert (Hpow3 : (10 ^ Z.of_nat (length (c :: s2')) <= 10 ^ 3)%Z)
      by (apply Z.pow_le_mono_r; simpl; lia).
    destruct Hsg as [-> | ->]; lia.
Qed.

Lemma int_range (todecimal : N -> option N) (s : str) (n : Z) :
  (length s <= 4)%nat ->
  int todecimal s = Return n ->
  (-999 <= n <= 9999)%Z.
Proof.
  intros Hlen. unfold int. apply long_from_string_range.
  unfold transform_decimal_and_space.
  destruct (forallb _ s); [exact Hlen|].
  pose proof (transform_nonascii_length todecimal s). lia.
Qed.

Lemma slice_four (s : str) (a : Z) :
  (length (slice s (Some a) (Some (a + 4)%Z)) <= 4)%nat.
Proof.
  unfold slice. rewrite length_take. unfold adjust.
  destruct (a <? 0)%Z eqn:Ha, (a + 4 <? 0)%Z eqn:Hb; lia.
Qed.

(** X7.  The quality of every record of a parse is an even number
    between -1798 and 20198: the signal is read from four characters at
    most, so it lies between -999 and 9999. *)
Theorem parse_output_quality_range (todecimal : N -> option N) (output : str)
    (aps : list AccessPoint) :
  parse_output todecimal output = Return aps ->
  Forall (fun ap => (-1798 <= quality ap <= 20198)%Z
                    /\ (quality ap mod 2 = 0)%Z) aps.
Proof.
  intros H. apply parse_output_records in H.
  eapply Forall_impl; [exact H|].
  intros ap (line & cb & _ & Hr). unfold record_of_line in Hr.
  destruct (contains line (lit "IBSS")); [discriminate|].
  destruct (int todecimal _) as [n|] eqn:Hn; [|discriminate].
  injection Hr as <-. simpl.
  apply int_range in Hn.
  - unfold rssi_to_quality. split; [lia|].
    rewrite Z.mul_comm. apply Z.mod_mul. lia.
  - etransitivity; [apply sublist_length, strip_sublist|apply slice_four].
Qed.

Lemma parse_output_quality_range_witness :
  Forall (fun ap => (-1798 <= quality ap <= 20198)%Z
                    /\ (quality ap mod 2 = 0)%Z) [HomeNet].
Proof.
  apply (parse_output_quality_range unicode14_todecimal
           (sample_header ++ newline ++ sample_aligned_line)).
  vm_compute. reflexivity.
Defined.

(** ** Lines that leave no trace *)

Lemma lstrip_blank (s : str) :
  Forall (fun c => isspace c = true) s -> lstrip s = [].
Proof. induction 1 as [|c s Hc _ IH]; simpl; [reflexivity|now rewrite Hc]. Qed.

Lemma strip_blank (s : str) :
  Forall (fun c => isspace c = true) s -> strip s = [].
Proof. intros H. unfold strip. now rewrite lstrip_blank. Qed.

Lemma sublist_blank (s t : str) :
  s `sublist_of` t ->
  Forall (fun c => isspace c = true) t -> Forall (fun c => isspace c = true) s.
Proof.
  intros Hs Ht. rewrite Forall_forall in *. intros c Hc.
  apply Ht. eapply elem_of_sublist; eassumption.
Qed.

(** A line of white space, or an empty line, changes no variable of the
    loop, whatever they hold. *)
Lemma loop_body_blank (todecimal : N -> option N) (st : locals) (line : str) :
  Forall (fun c => isspace c = true) line ->
  loop_body todecimal st line = Return st.
Proof.
  intros Hb. unfold loop_body, is_header. rewrite (strip_blank line Hb).
  change (startswith [] (lit "SSID BSSID")) with false.
  destruct (_ && _ && _); [|reflexivity].
  unfold try_block.
  destruct (ssid_end_index st); simpl; [|reflexivity].
  destruct (rssi_start_index st) as [r|]; simpl; [|reflexivity].
  rewrite (strip_blank (slice line (Some r) (Some (r + 4)%Z))).
  - reflexivity.
  - eapply sublist_blank; [apply slice_sublist|exact Hb].
Qed.

(** X8.  Empty lines and lines of white space are passed over wherever
    they stand: the parse of a text is the parse of the text without
    such a line. *)
Theorem blank_line_ignored (todecimal : N -> option N) (output output' : str)
    (before after : list str) (line : str) :
  Forall (fun c => isspace c = true) line ->
  split output newline = Return (before ++ line :: after) ->
  split output' newline = Return (before ++ after) ->
  parse_output todecimal output = parse_output todecimal output'.
Proof.
  intros Hb Ho Ho'. unfold parse_output. rewrite Ho, Ho'. simpl.
  rewrite !for_lines_app. simpl.
  destruct (for_lines todecimal initial_locals before) as [st1|e]; simpl;
    [|reflexivity].
  now rewrite loop_body_blank.
Qed.

Lemma blank_line_ignored_witness :
  parse_output unicode14_todecimal
    (sample_header ++ newline ++ lit "     " ++ newline ++ sample_aligned_line)
  = parse_output unicode14_todecimal
      (sample_header ++ newline ++ sample_aligned_line).
Proof.
  apply (blank_line_ignored unicode14_todecimal _ _
           [sample_header] [sample_aligned_line] (lit "     ")).
  - vm_compute. repeat constructor.
  - vm_compute. reflexivity.
  - vm_compute. reflexivity.
Defined.

(** ** Longer texts *)

Lemma split_go_app (c : N) (cur s t : str) :
  split_go [c] 0 cur (s ++ [c] ++ t) =
  split_go [c] 0 cur s ++ split_go [c] 0 [] t.
Proof.
  revert cur. induction s as [|x s IH]; intros cur; simpl.
  - now rewrite N.eqb_refl.
  - rewrite andb_true_r. destruct (x =? c).
    + simpl. f_equal. apply IH.
    + apply IH.
Qed.

Lemma for_lines_app_returns (todecimal : N -> option N) (st st' : locals)
    (l1 l2 : list str) :
  for_lines todecimal st (l1 ++ l2) = Return st' ->
  exists st1, for_lines todecimal st l1 = Return st1
              /\ for_lines todecimal st1 l2 = Return st'.
Proof.
  rewrite for_lines_app.
  destruct (for_lines todecimal st l1) as [st1|]; simpl; [eauto|discriminate].
Qed.

(** X9.  A line break at the end of the text makes no difference. *)
Theorem parse_output_final_newline (todecimal : N -> option N) (output : str) :
  parse_output todecimal (output ++ newline) = parse_output todecimal output.
Proof.
  unfold parse_output.
  change (split (output ++ newline) newline)
    with (Return (split_go [0x0A] 0 [] (output ++ [0x0A] ++ []))).
  change (split output newline) with (Return (split_go [0x0A] 0 [] output)).
  rewrite split_go_app. simpl. rewrite for_lines_app.
  destruct (for_lines todecimal initial_locals _) as [st|]; simpl; reflexivity.
Qed.

(** X10.  Records come in the order of the lines, and further lines take
    nothing back: when a text followed by more lines is parsed, the
    text alone is parsed too, and its records are the first records of
    the longer parse. *)
Theorem parse_output_extends (todecimal : N -> option N) (output more : str)
    (aps' : list AccessPoint) :
  parse_output todecimal (output ++ newline ++ more) = Return aps' ->
  exists aps, parse_output todecimal output = Return aps /\ aps `prefix_of` aps'.
Proof.
  unfold parse_output.
  change (split (output ++ newline ++ more) newline)
    with (Return (split_go [0x0A] 0 [] (output ++ [0x0A] ++ more))).
  change (split output newline) with (Return (split_go [0x0A] 0 [] output)).
  rewrite split_go_app. simpl.
  destruct (for_lines todecimal initial_locals (_ ++ _)) as [st'|] eqn:H;
    [|discriminate].
  simpl. intros [= <-].
  apply for_lines_app_returns in H as (st1 & H1 & H2).
  rewrite H1. simpl. exists (results st1). split; [reflexivity|].
  apply for_lines_adds in H2 as (new & -> & _). now exists new.
Qed.

Lemma parse_output_extends_witness :
  exists aps,
    parse_output unicode14_todecimal (sample_header ++ newline ++ sample_aligned_line)
    = Return aps
    /\ aps `prefix_of` [HomeNet; HomeNet].
Proof.
  apply (parse_output_extends unicode14_todecimal
           (sample_header ++ newline ++ sample_aligned_line) sample_aligned_line).
  vm_compute. reflexivity.
Defined.

(** ** [ensure_str] on any value *)

(** X11.  [ensure_str] raises on no value: bytes become the string of
    their UTF-8 decoding with the undecodable bytes dropped, a string
    and [None] come back as they are.  Applying it twice is applying it
    once. *)
Theorem ensure_str_idempotent (output : pyobj) :
  exists o, ensure_str output = Return o
            /\ ensure_str o = Return o
            /\ match output with
               | PyBytes b =>
                   exists s, bytes_decode UTF8 Ignore b = Return s /\ o = PyStr s
               | PyStr s => o = PyStr s
               | PyNone => o = PyNone
               end.
Proof.
  destruct output as [b|s|].
  - destruct (decode_utf8_ignore_returns b) as [s Hs].
    exists (PyStr s). unfold ensure_str. simpl. rewrite Hs. simpl.
    repeat split. exists s. split; reflexivity.
  - exists (PyStr s). repeat split.
  - exists PyNone. repeat split.
Qed.

(** X12.  Bytes that are valid UTF-8 are decoded as they stand: nothing
    is dropped. *)
Theorem ensure_str_valid_utf8 (b : list byte) (s : str) :
  bytes_decode UTF8 Strict b = Return s ->
  ensure_str (PyBytes b) = Return (PyStr s).
Proof.
  simpl. intros H. apply decode_utf8_strict_ignore in H.
  unfold ensure_str. simpl. now rewrite H.
Qed.

Lemma ensure_str_valid_utf8_witness :
  ensure_str (PyBytes [x63; x61; x66; xc3; xa9; xe2; x82; xac; xf0; x9f; x93; xb6])
  = Return (PyStr [0x63; 0x61; 0x66; 0xE9; 0x20AC; 0x1F4F6]).
Proof. apply ensure_str_valid_utf8. vm_compute. reflexivity. Defined.

(** ** More on [aps_to_dict] *)

Lemma aps_to_dict_lookup_None (aps : list AccessPoint) (k : str) :
  aps_to_dict aps !! k = None <-> k ∉ ap_key <$> aps.
Proof.
  induction aps as [|ap aps IH] using rev_ind.
  - split; [intros _; apply not_elem_of_nil|reflexivity].
  - rewrite aps_to_dict_snoc, fmap_app, not_elem_of_app, lookup_insert_None.
    simpl. rewrite IH, not_elem_of_cons. split.
    + intros [H1 H2]. repeat split; [assumption|congruence|apply not_elem_of_nil].
    + intros [H1 [H2 _]]. split; [assumption|congruence].
Qed.

(** X13.  The dict has at most as many entries as there are records, and
    exactly as many if and only if no two records have the same key. *)
Theorem aps_to_dict_size (aps : list AccessPoint) :
  (size (aps_to_dict aps) <= length aps)%nat
  /\ (size (aps_to_dict aps) = length aps <-> NoDup (ap_key <$> aps)).
Proof.
  induction aps as [|ap aps [IHle IHeq]] using rev_ind.
  - split; [reflexivity|]. split; [constructor|reflexivity].
  - rewrite aps_to_dict_snoc, fmap_app, length_app, map_size_insert. simpl.
    rewrite NoDup_app.
    destruct (aps_to_dict aps !! ap_key ap) as [q|] eqn:Hk; simpl.
    + split; [lia|]. split; [lia|].
      intros (_ & Hdis & _). exfalso.
      assert (Hin : ap_key ap ∈ ap_key <$> aps).
      { destruct (decide (ap_key ap ∈ ap_key <$> aps)) as [H|H]; [exact H|].
        apply aps_to_dict_lookup_None in H. congruence. }
      apply (Hdis _ Hin). now left.
    + apply aps_to_dict_lookup_None in Hk.
      split; [lia|]. split.
      * intros H. repeat split.
        -- apply IHeq. lia.
        -- intros k Hin Hk'. apply list_elem_of_singleton in Hk'. congruence.
        -- apply NoDup_singleton.
      * intros (Hnd & _ & _). apply IHeq in Hnd. lia.
Qed.

(** X14.  The dict of two batches of records is the dict of the second
    batch, completed by the dict of the first. *)
Theorem aps_to_dict_app (aps1 aps2 : list AccessPoint) :
  aps_to_dict (aps1 ++ aps2) = aps_to_dict aps2 ∪ aps_to_dict aps1.
Proof.
  induction aps2 as [|ap aps2 IH] using rev_ind.
  - rewrite app_nil_r. unfold aps_to_dict at 2. simpl.
    now rewrite (left_id_L ∅ (∪)).
  - rewrite app_assoc, !aps_to_dict_snoc, IH. apply insert_union_l.
Qed.

(** X15.  When no two records have the same key, every record is found
    in the dict with its own quality. *)
Theorem aps_to_dict_distinct_keys (aps : list AccessPoint) (ap : AccessPoint) :
  NoDup (ap_key <$> aps) ->
  ap ∈ aps ->
  aps_to_dict aps !! ap_key ap = Some (quality ap).
Proof.
  induction aps as [|a aps IH] using rev_ind; [intros _ H; inversion H|].
  rewrite fmap_app, NoDup_app. simpl. intros (Hnd & Hdis & _) Hin.
  rewrite aps_to_dict_snoc.
  apply elem_of_app in Hin as [Hin|Hin].
  - rewrite lookup_insert_ne; [now apply IH|].
    intros Heq. apply (Hdis (ap_key ap)).
    + now apply list_elem_of_fmap_2.
    + rewrite Heq. now left.
  - apply list_elem_of_singleton in Hin as ->. apply lookup_insert_eq.
Qed.

Lemma aps_to_dict_distinct_keys_witness :
  aps_to_dict
    [HomeNet; {| ssid := lit "Cafe"; bssid := lit "aa:bb:cc:dd:ee:02";
                 quality := 40; security := lit "NONE" |}]
  !! ap_key HomeNet = Some 90%Z.
Proof.
  apply (aps_to_dict_distinct_keys _ HomeNet).
  - vm_compute. repeat constructor; intros H;
      repeat (apply elem_of_cons in H as [H|H]; [discriminate|]); inversion H.
  - now left.
Defined.

(** ** The table of [print_wifi_networks] *)

Lemma insert_by_quality_perm (ap : AccessPoint) (l : list AccessPoint) :
  insert_by_quality ap l ≡ₚ ap :: l.
Proof.
  induction l as [|x l IH]; simpl; [reflexivity|].
  destruct (quality x <=? quality ap)%Z; [reflexivity|].
  rewrite IH. apply Permutation_swap.
Qed.

Lemma insert_by_quality_sorted (ap : AccessPoint) (l : list AccessPoint) :
  StronglySorted (fun a b => (quality b <= quality a)%Z) l ->
  StronglySorted (fun a b => (quality b <= quality a)%Z) (insert_by_quality ap l).
Proof.
  induction 1 as [|x l Hs IH Hx]; simpl.
  - constructor; constructor.
  - destruct (Z.leb_spec (quality x) (quality ap)).
    + constructor; [now constructor|].
      constructor; [assumption|].
      eapply Forall_impl; [exact Hx|]. simpl. intros; lia.
    + constructor; [exact IH|].
      rewrite insert_by_quality_perm. constructor; [lia|exact Hx].
Qed.

Lemma insert_by_quality_filter (q : Z) (ap : AccessPoint) (l : list AccessPoint) :
  filter (fun x => quality x = q) (insert_by_quality ap l)
  = filter (fun x => quality x = q) (ap :: l).
Proof.
  induction l as [|x l IH]; simpl; [reflexivity|].
  destruct (Z.leb_spec (quality x) (quality ap)); [reflexivity|].
  rewrite !filter_cons in *. rewrite IH.
  destruct (decide (quality x = q)), (decide (quality ap = q)); try reflexivity.
  lia.
Qed.

(** X17.  The colour of a row, read on the signal strength: green from
    -65 dBm up, yellow from -75, magenta from -85, red below. *)
Theorem color_of_rssi (rssi : Z) :
  color_of (rssi_to_quality rssi) =
  if (-65 <=? rssi)%Z then Bcolors_GREAT
  else if (-75 <=? rssi)%Z then Bcolors_GOOD
  else if (-85 <=? rssi)%Z then Bcolors_FAIR
  else Bcolors_POOR.
Proof.
  unfold color_of, rssi_to_quality.
  repeat match goal with
         | |- context [(?a <=? ?b)%Z] => destruct (Z.leb_spec a b)
         end; try reflexivity; lia.
Qed.

Lemma sorted_by_quality_perm (networks : list AccessPoint) :
  sorted_by_quality networks ≡ₚ networks.
Proof.
  unfold sorted_by_quality.
  induction networks as [|ap l IH]; simpl; [reflexivity|].
  rewrite insert_by_quality_perm. now constructor.
Qed.

Lemma sorted_by_quality_sorted (networks : list AccessPoint) :
  StronglySorted (fun a b => (quality b <= quality a)%Z)
    (sorted_by_quality networks).
Proof.
  unfold sorted_by_quality.
  induction networks as [|ap l IH]; simpl; [constructor|].
  now apply insert_by_quality_sorted.
Qed.

Lemma sorted_by_quality_filter (q : Z) (networks : list AccessPoint) :
  filter (fun x => quality x = q) (sorted_by_quality networks)
  = filter (fun x => quality x = q) networks.
Proof.
  unfold sorted_by_quality.
  induction networks as [|ap l IH]; simpl; [reflexivity|].
  rewrite insert_by_quality_filter, !filter_cons, IH. reflexivity.
Qed.

Lemma foldl_max_list {A : Type} (f : A -> nat) (l : list A) (x : nat) :
  foldl Nat.max x (map f l) = Nat.max x (max_list_with f l).
Proof.
  revert x. induction l as [|a l IH]; intros x; simpl; [lia|].
  rewrite IH. lia.
Qed.

Lemma max_list_with_ge {A : Type} (f : A -> nat) (l : list A) (a : A) :
  a ∈ l -> (f a <= max_list_with f l)%nat.
Proof.
  induction 1 as [a l|a b l _ IH]; simpl; lia.
Qed.

(** The width of a column: the longest of its header and its values. *)
Lemma column_width_value (networks sorted : list AccessPoint) (header : str) :
  networks <> [] ->
  sorted ≡ₚ networks ->
  column_width sorted header
  = Return (Nat.max (length header)
              (max_list_with
                 (fun ap => length (py_str (ap_get ap (lower_ascii header))))
                 networks)).
Proof.
  intros Hne Hp. rewrite <- Hp. unfold column_width.
  destruct sorted as [|a l].
  { apply Permutation_nil_l in Hp. congruence. }
  simpl. rewrite foldl_max_list. reflexivity.
Qed.

Lemma print_rows_map (w1 w2 w3 w4 : nat) (networks : list AccessPoint) :
  print_rows [w1; w2; w3; w4] networks
  = (map (table_row w1 w2 w3 w4) networks, Return tt).
Proof.
  induction networks as [|ap l IH]; [reflexivity|].
  cbn [print_rows]. rewrite IH. reflexivity.
Qed.

(** What [print_wifi_networks] prints for at least one network. *)
Lemma print_wifi_networks_lines (networks : list AccessPoint) :
  networks <> [] ->
  let w1 := Nat.max 4 (max_list_with (fun ap => length (ssid ap)) networks) in
  let w2 := Nat.max 5 (max_list_with (fun ap => length (bssid ap)) networks) in
  let w3 := Nat.max 7 (max_list_with
                         (fun ap => length (str_of_int (quality ap))) networks) in
  let w4 := Nat.max 8 (max_list_with (fun ap => length (security ap)) networks) in
  print_wifi_networks networks
  = (table_line w1 w2 w3 w4 (lit "SSID") (lit "BSSID") (lit "Quality")
       (lit "Security")
     :: replicate (w1 + w2 + w3 + w4 + 10) 0x2D
     :: map (table_row w1 w2 w3 w4) (sorted_by_quality networks),
     Return tt).
Proof.
  intros Hne w1 w2 w3 w4. unfold print_wifi_networks, headers.
  pose proof (sorted_by_quality_perm networks) as Hp.
  cbn [map_outcome].
  rewrite !(column_width_value networks _ _ Hne Hp).
  cbn [bind].
  change (Nat.max (length (lit "SSID")) _) with w1.
  change (Nat.max (length (lit "BSSID")) _) with w2.
  change (Nat.max (length (lit "Quality")) _) with w3.
  change (Nat.max (length (lit "Security")) _) with w4.
  rewrite print_rows_map.
  replace (foldr Nat.add 0 [w1; w2; w3; w4] + length [w1; w2; w3; w4] * 3 - 2)%nat
    with (w1 + w2 + w3 + w4 + 10)%nat by (simpl; lia).
  reflexivity.
Qed.

Lemma ljust_length (s : str) (width : nat) :
  (length s <= width)%nat -> length (ljust s width) = width.
Proof. intros H. unfold ljust. rewrite length_app, length_replicate. lia. Qed.

Lemma table_line_length (w1 w2 w3 w4 : nat) (c1 c2 c3 c4 : str) :
  (length c1 <= w1)%nat -> (length c2 <= w2)%nat ->
  (length c3 <= w3)%nat -> (length c4 <= w4)%nat ->
  length (table_line w1 w2 w3 w4 c1 c2 c3 c4) = (w1 + w2 + w3 + w4 + 9)%nat.
Proof.
  intros H1 H2 H3 H4. unfold table_line.
  rewrite !length_app, !ljust_length by assumption.
  change (length (lit " | ")) with 3%nat. lia.
Qed.

(** X18.  Given at least one network, [print_wifi_networks] raises
    nothing and prints: the four headers in columns as wide as the
    longest of the header and the values under it, with [" | "]
    between; a rule of hyphens; and, best first, one row for each
    network, made of the colour of its quality and its name, address,
    quality and security in the same columns.  The header line and the
    rows, colour apart, have the same width; the rule is one character
    wider. *)
Theorem print_wifi_networks_table (networks : list AccessPoint) :
  networks <> [] ->
  let w1 := Nat.max 4 (max_list_with (fun ap => length (ssid ap)) networks) in
  let w2 := Nat.max 5 (max_list_with (fun ap => length (bssid ap)) networks) in
  let w3 := Nat.max 7 (max_list_with
                         (fun ap => length (str_of_int (quality ap))) networks) in
  let w4 := Nat.max 8 (max_list_with (fun ap => length (security ap)) networks) in
  let width := (w1 + w2 + w3 + w4 + 9)%nat in
  let head := ljust (lit "SSID") w1 ++ lit " | " ++ ljust (lit "BSSID") w2
              ++ lit " | " ++ ljust (lit "Quality") w3 ++ lit " | "
              ++ ljust (lit "Security") w4 in
  let row ap := color_of (quality ap)
                ++ ljust (ssid ap) w1 ++ lit " | " ++ ljust (bssid ap) w2
                ++ lit " | " ++ ljust (str_of_int (quality ap)) w3 ++ lit " | "
                ++ ljust (security ap) w4 in
  print_wifi_networks networks
  = (head :: replicate (width + 1) 0x2D
     :: map row (sorted_by_quality networks), Return tt)
  /\ length head = width
  /\ Forall (fun ap => length (row ap) = (length (color_of (quality ap)) + width)%nat)
       networks.
Proof.
  intros Hne w1 w2 w3 w4 width head row.
  split; [|split].
  - rewrite (print_wifi_networks_lines networks Hne).
    fold w1 w2 w3 w4.
    replace (w1 + w2 + w3 + w4 + 10)%nat with (width + 1)%nat
      by (unfold width; lia).
    reflexivity.
  - apply (table_line_length w1 w2 w3 w4); subst w1 w2 w3 w4;
      match goal with |- (length (lit ?s) <= _)%nat =>
        let n := eval vm_compute in (length (lit s)) in
        change (length (lit s)) with n end; lia.
  - rewrite Forall_forall. intros ap Hap. unfold row.
    rewrite length_app. f_equal.
    apply (table_line_length w1 w2 w3 w4);
      [pose proof (max_list_with_ge (fun ap => length (ssid ap)) _ _ Hap)
      |pose proof (max_list_with_ge (fun ap => length (bssid ap)) _ _ Hap)
      |pose proof (max_list_with_ge
                     (fun ap => length (str_of_int (quality ap))) _ _ Hap)
      |pose proof (max_list_with_ge (fun ap => length (security ap)) _ _ Hap)];
      simpl in *; lia.
Qed.

Lemma print_wifi_networks_table_witness :
  print_wifi_networks
    [{| ssid := lit "Cafe"; bssid := lit "aa:bb:cc:dd:ee:02"; quality := 40;
        security := lit "NONE" |}; HomeNet]
  = ([lit "SSID    | BSSID             | Quality | Security         ";
      lit "----------------------------------------------------------";
      0x1B :: lit "[0;32mHomeNet | aa:bb:cc:dd:ee:ff | 90      | WPA2(PSK/AES/AES)";
      0x1B :: lit "[35mCafe    | aa:bb:cc:dd:ee:02 | 40      | NONE             "],
     Return tt).
Proof.
  destruct (print_wifi_networks_table
              [{| ssid := lit "Cafe"; bssid := lit "aa:bb:cc:dd:ee:02";
                  quality := 40; security := lit "NONE" |}; HomeNet])
    as [H _]; [discriminate|].
  rewrite H. vm_compute. reflexivity.
Defined.

(** X16.  The rows that [print_wifi_networks] prints are the rows of
    the networks by falling quality: of the same networks, none lost or
    repeated, each at least as good as all after it, and those of equal
    quality in the order they had in the list. *)
Theorem print_wifi_networks_best_first (networks : list AccessPoint) :
  networks <> [] ->
  exists (head rule : str) (w1 w2 w3 w4 : nat) (order : list AccessPoint),
    print_wifi_networks networks
    = (head :: rule :: map (table_row w1 w2 w3 w4) order, Return tt)
    /\ order ≡ₚ networks
    /\ StronglySorted (fun a b => (quality b <= quality a)%Z) order
    /\ forall q, filter (fun x => quality x = q) order
                 = filter (fun x => quality x = q) networks.
Proof.
  intros Hne. pose proof (print_wifi_networks_lines networks Hne) as H.
  cbv zeta in H. do 6 eexists. exists (sorted_by_quality networks).
  split; [exact H|]. split; [apply sorted_by_quality_perm|].
  split; [apply sorted_by_quality_sorted|].
  intros q. apply sorted_by_quality_filter.
Qed.

Lemma print_wifi_networks_best_first_witness :
  exists (head rule : str) (w1 w2 w3 w4 : nat) (order : list AccessPoint),
    print_wifi_networks [sample_fixture; HomeNet; sample_fixture]
    = (head :: rule :: map (table_row w1 w2 w3 w4) order, Return tt)
    /\ order ≡ₚ [sample_fixture; HomeNet; sample_fixture]
    /\ StronglySorted (fun a b => (quality b <= quality a)%Z) order
    /\ forall q, filter (fun x => quality x = q) order
                 = filter (fun x => quality x = q)
                     [sample_fixture; HomeNet; sample_fixture].
Proof. apply print_wifi_networks_best_first. discriminate. Defined.

(** ** [main] and [sample] *)

Lemma main_access_points_darwin_parse (todecimal : N -> option N)
    (call_subprocess : str -> list byte) (device s : str) :
  bytes_decode UTF8 Ignore (call_subprocess OSXWifiScanner_get_cmd) = Return s ->
  main_access_points todecimal call_subprocess (lit "Darwin") device
  = ([OSXWifiScanner_get_cmd], parse_output todecimal s).
Proof.
  intros Hs. unfold main_access_points, get_access_points, ensure_str.
  simpl in *. rewrite Hs. reflexivity.
Qed.

Lemma main_access_points_any_device (todecimal : N -> option N)
    (call_subprocess : str -> list byte) (operating_system device device' : str) :
  main_access_points todecimal call_subprocess operating_system device
  = main_access_points todecimal call_subprocess operating_system device'.
Proof.
  unfold main_access_points, get_scanner.
  destruct (bool_decide (operating_system = lit "Darwin")); reflexivity.
Qed.



(** X20.  Without [-n], a scan that finds no network makes [main] raise
    [ValueError] after the command has run, with nothing printed: the
    widest value of a column is taken over an empty sequence. *)
Theorem main_without_networks (todecimal : N -> option N)
    (call_subprocess : str -> list byte) (argv : list str) (s : str) :
  lit "-n" ∉ argv ->
  bytes_decode UTF8 Ignore (call_subprocess OSXWifiScanner_get_cmd) = Return s ->
  parse_output todecimal s = Return [] ->
  print_wifi_networks [] = ([], Raise ValueError)
  /\ main todecimal call_subprocess (lit "Darwin") argv
     = ([OSXWifiScanner_get_cmd], [], Raise ValueError).
Proof.
  intros Hn Hs Hp. split; [reflexivity|]. unfold main.
  rewrite (main_access_points_darwin_parse _ _ _ s Hs), Hp.
  now rewrite bool_decide_eq_false_2.
Qed.

Lemma main_without_networks_witness :
  print_wifi_networks [] = ([], Raise ValueError)
  /\ main unicode14_todecimal silent_command (lit "Darwin") [lit "main.py"; lit "en0"]
     = ([OSXWifiScanner_get_cmd], [], Raise ValueError).
Proof.
  apply (main_without_networks unicode14_todecimal silent_command _ []).
  - vm_compute. intros H.
    repeat (apply elem_of_cons in H as [H|H]; [discriminate|]). inversion H.
  - vm_compute. reflexivity.
  - vm_compute. reflexivity.
Defined.

(** X21.  The arguments of [main] count only through the presence of
    [-n]: the device they name has no effect on the command, on the
    lines printed or on the outcome. *)
Theorem main_ignores_device (todecimal : N -> option N)
    (call_subprocess : str -> list byte) (operating_system : str)
    (argv argv' : list str) :
  (lit "-n" ∈ argv <-> lit "-n" ∈ argv') ->
  main todecimal call_subprocess operating_system argv
  = main todecimal call_subprocess operating_system argv'.
Proof.
  intros Hn. unfold main.
  rewrite (main_access_points_any_device todecimal call_subprocess operating_system
             _ (hd [] match filter (fun x => contains x (lit "-") = false) (drop 1 argv')
                      with [] => [lit ""] | _ :: _ =>
                        filter (fun x => contains x (lit "-") = false) (drop 1 argv')
                      end)).
  destruct (main_access_points _ _ _ _) as [commands [aps|e]]; [|reflexivity].
  now rewrite (bool_decide_ext _ _ Hn).
Qed.

Lemma main_ignores_device_witness :
  main unicode14_todecimal sample_command (lit "Darwin") [lit "main.py"; lit "en0"]
  = main unicode14_todecimal sample_command (lit "Darwin") [lit "main.py"; lit "en1"; lit "-v"].
Proof.
  apply main_ignores_device.
  vm_compute. split; intros H;
    repeat (apply elem_of_cons in H as [H|H]; [discriminate|]); inversion H.
Defined.

(** X22.  With [PYTHON_ENV] set to a string that is not empty, [sample]
    runs no command and gives the dict of its one built-in record, on
    every operating system, the unsupported ones included. *)
Theorem sample_with_python_env (todecimal : N -> option N)
    (call_subprocess : str -> list byte) (operating_system value device : str) :
  value <> [] ->
  sample todecimal call_subprocess operating_system (Some value) device
  = ([], Return {[ lit "X XX:XX:XX:XX:XX:84" := 100%Z ]}).
Proof.
  intros Hv. unfold sample, get_scanner.
  destruct value as [|c value]; [congruence|].
  destruct (bool_decide (operating_system = lit "Darwin")); simpl;
    unfold aps_to_dict; simpl; rewrite insert_empty; reflexivity.
Qed.

Lemma sample_with_python_env_witness :
  sample unicode14_todecimal sample_command (lit "Linux") (Some (lit "test")) (lit "")
  = ([], Return {[ lit "X XX:XX:XX:XX:XX:84" := 100%Z ]}).
Proof. apply sample_with_python_env. vm_compute. discriminate. Defined.

(** X23.  With [PYTHON_ENV] unset, or set to the empty string, [sample]
    scans: on Darwin it runs the command and gives the dict of the
    records parsed from what the command wrote, or the error of the
    parse; on any other system it runs nothing and raises
    [AttributeError]. *)
Theorem sample_without_python_env (todecimal : N -> option N)
    (call_subprocess : str -> list byte) (operating_system : str)
    (PYTHON_ENV : option str) (device s : str) :
  PYTHON_ENV = None \/ PYTHON_ENV = Some [] ->
  bytes_decode UTF8 Ignore (call_subprocess OSXWifiScanner_get_cmd) = Return s ->
  sample todecimal call_subprocess operating_system PYTHON_ENV device
  = if bool_decide (operating_system = lit "Darwin")
    then ([OSXWifiScanner_get_cmd],
          let* aps := parse_output todecimal s in Return (aps_to_dict aps))
    else ([], Raise AttributeError).
Proof.
  intros Henv Hs. unfold sample, get_scanner.
  destruct (bool_decide (operating_system = lit "Darwin")).
  - unfold get_access_points, ensure_str. simpl in *. rewrite Hs.
    destruct Henv as [-> | ->]; reflexivity.
  - destruct Henv as [-> | ->]; reflexivity.
Qed.

Lemma sample_without_python_env_witness :
  sample unicode14_todecimal sample_command (lit "Darwin") (Some []) (lit "")
  = ([OSXWifiScanner_get_cmd],
     Return {[ lit "HomeNet aa:bb:cc:dd:ee:ff" := 90%Z ]})
  /\ sample unicode14_todecimal sample_command (lit "Linux") None (lit "")
     = ([], Raise AttributeError).
Proof.
  split.
  - rewrite (sample_without_python_env unicode14_todecimal sample_command
               (lit "Darwin") (Some []) (lit "")
               (sample_header ++ newline ++ sample_aligned_line ++ newline)
               (or_intror eq_refl));
      vm_compute; reflexivity.
  - rewrite (sample_without_python_env unicode14_todecimal sample_command
               (lit "Linux") None (lit "")
               (sample_header ++ newline ++ sample_aligned_line ++ newline)
               (or_introl eq_refl));
      vm_compute; reflexivity.
Defined.

(** ** Output in ASCII *)

Lemma ascii_bytes_cons (c : N) (s : str) :
  ascii_bytes (c :: s) =
  match Byte.of_N c with
  | Some b => b :: ascii_bytes s
  | None => ascii_bytes s
  end.
Proof. reflexivity. Qed.

Lemma decode_utf8_ascii (h : errors) (s : str) :
  Forall (fun c => c < 0x80) s ->
  decode_utf8 h (ascii_bytes s) = Return s.
Proof.
  induction 1 as [|c s Hc _ IH]; [reflexivity|].
  rewrite ascii_bytes_cons.
  destruct (Byte.of_N c) as [b|] eqn:Hb.
  - apply Byte.to_of_N in Hb. cbn [decode_utf8]. rewrite Hb.
    destruct (N.ltb_spec c 0x80) as [_|Hge]; [|lia].
    rewrite IH. reflexivity.
  - apply Byte.of_N_None_iff in Hb. lia.
Qed.

(** X24.  When the scan command writes an ASCII text, the scan on Darwin
    is the parse of that very text: decoding changes nothing. *)
Theorem main_access_points_ascii (todecimal : N -> option N)
    (call_subprocess : str -> list byte) (device s : str) :
  Forall (fun c => c < 0x80) s ->
  call_subprocess OSXWifiScanner_get_cmd = ascii_bytes s ->
  ensure_str (PyBytes (ascii_bytes s)) = Return (PyStr s)
  /\ main_access_points todecimal call_subprocess (lit "Darwin") device
     = ([OSXWifiScanner_get_cmd], parse_output todecimal s).
Proof.
  intros Hs Hc. pose proof (decode_utf8_ascii Ignore s Hs) as Hd. split.
  - unfold ensure_str. simpl. rewrite Hd. reflexivity.
  - apply main_access_points_darwin_parse. rewrite Hc. exact Hd.
Qed.

Lemma main_access_points_ascii_witness :
  ensure_str (PyBytes (ascii_bytes (sample_header ++ newline ++ sample_aligned_line ++ newline)))
  = Return (PyStr (sample_header ++ newline ++ sample_aligned_line ++ newline))
  /\ main_access_points unicode14_todecimal sample_command (lit "Darwin") (lit "en0")
     = ([OSXWifiScanner_get_cmd],
        parse_output unicode14_todecimal
          (sample_header ++ newline ++ sample_aligned_line ++ newline)).
Proof.
  apply main_access_points_ascii.
  - vm_compute. repeat constructor.
  - reflexivity.
Defined.

(** ** Keys without collision *)

(** X25.  Two records whose addresses hold no blank have the same key
    only if they have the same name and the same address. *)
Theorem ap_key_injective (a b : AccessPoint) :
  0x20 ∉ bssid a ->
  0x20 ∉ bssid b ->
  ap_key a = ap_key b ->
  ssid a = ssid b /\ bssid a = bssid b.
Proof.
  unfold ap_key. change (lit " ") with [0x20]. simpl.
  intros Ha Hb H.
  apply not_elem_of_app_cons_inv_r in H as (H1 & _ & H2); [split|..]; assumption.
Qed.

Lemma ap_key_injective_witness :
  ssid HomeNet = ssid HomeNet /\ bssid HomeNet = bssid HomeNet.
Proof.
  apply ap_key_injective; try reflexivity;
    vm_compute; intros H;
    repeat (apply elem_of_cons in H as [H|H]; [discriminate|]); inversion H.
Defined.

(** ** Records and lines *)

Lemma for_lines_count (todecimal : N -> option N) (lines : list str) (st st' : locals) :
  for_lines todecimal st lines = Return st' ->
  (length (results st') <= length (results st) + length lines)%nat.
Proof.
  revert st. induction lines as [|line lines IH]; intros st; simpl.
  - intros [= <-]. lia.
  - destruct (loop_body todecimal st line) as [st1|] eqn:H1; simpl; [|discriminate].
    intros H. apply IH in H.
    apply loop_body_adds in H1 as [H1|(cb & ap & _ & H1)]; rewrite H1 in H.
    + lia.
    + rewrite length_app in H. simpl in H. lia.
Qed.

Lemma split_go_length (sep : str) (skip : nat) (cur s : str) :
  (1 <= length (split_go sep skip cur s))%nat.
Proof.
  revert skip cur. induction s as [|c s IH]; intros skip cur; simpl; [lia|].
  destruct skip; [|apply IH].
  destruct (startswith (c :: s) sep); simpl; [lia|apply IH].
Qed.

(** X26.  A parse gives fewer records than the text has lines: a line
    gives one record at most, and the first line gives none. *)
Theorem parse_output_fewer_than_lines (todecimal : N -> option N) (output : str)
    (lines : list str) (aps : list AccessPoint) :
  split output newline = Return lines ->
  parse_output todecimal output = Return aps ->
  (length aps < length lines)%nat.
Proof.
  intros Hl. unfold parse_output. rewrite Hl. simpl.
  assert (Hne : (1 <= length lines)%nat).
  { injection Hl as <-. apply split_go_length. }
  destruct lines as [|line lines]; [simpl in Hne; lia|]. simpl.
  destruct (loop_body todecimal initial_locals line) as [st1|] eqn:H1; simpl;
    [|discriminate].
  destruct (for_lines todecimal st1 lines) as [st'|] eqn:H2; simpl; [|discriminate].
  intros [= <-]. apply for_lines_count in H2.
  assert (Hr : results st1 = []).
  { unfold loop_body in H1. destruct (is_header line).
    - unfold header_branch, index in H1.
      destruct (find line (lit "SECURITY")); [|discriminate].
      destruct (find line (lit "SSID")); [|discriminate].
      destruct (find line (lit "RSSI")); [|discriminate].
      simpl in H1. injection H1 as <-. reflexivity.
    - simpl in H1. rewrite andb_false_r in H1. simpl in H1.
      injection H1 as <-. reflexivity. }
  rewrite Hr in H2. simpl in H2. lia.
Qed.

Lemma parse_output_fewer_than_lines_witness :
  (length [HomeNet] < 3)%nat.
Proof.
  apply (parse_output_fewer_than_lines unicode14_todecimal
           (sample_header ++ newline ++ sample_aligned_line ++ newline)
           [sample_header; sample_aligned_line; []] [HomeNet]).
  - vm_compute. reflexivity.
  - vm_compute. reflexivity.
Defined.
